(** * nctotdb.writers: NetCDF data models written to TileDB and Zarr

    A shallow embedding of [nctotdb/writers.py] (classes [TDBWriter] and
    [ZarrWriter]) together with the properties of its dimension translation,
    write-offset arithmetic, array paths and precondition checks.

    Python values are modelled as follows: [int] as [Z] (unbounded), [str]
    as [string], tuples and lists as [list], [dict] as [gmap], [None]-able
    arguments as [option].  Exceptions are values of [exn]; a method that
    touches the storage backend is a function from the backend store to a
    result and the store it leaves behind (an exception does not roll back
    the effects that came before it). *)

From Stdlib Require Import ZArith String Ascii List Lia.
From stdpp Require Import base option list gmap strings pretty.

Local Open Scope string_scope.
Local Open Scope Z_scope.
Local Open Scope list_scope.

(** ** Python exceptions and the two monads the methods run in *)

Inductive exn : Type :=
  | AssertionError
  | KeyError
  | ValueError
  | TypeError
  | IndexError
  | AttributeError
  | FileExistsError
  | TileDBError.

#[export] Instance exn_eq_dec : EqDecision exn.
Proof. solve_decision. Defined.

Class PyMonad (m : Type -> Type) : Type := {
  ret : forall {A}, A -> m A;
  bind : forall {A B}, m A -> (A -> m B) -> m B;
  raise : forall {A}, exn -> m A
}.

Notation "'do' x <- c ; k" := (bind c (fun x => k))
  (at level 10, x name, c at level 100, k at level 200).
Notation "'do_' c ; k" := (bind c (fun _ => k))
  (at level 10, c at level 100, k at level 200).

(** Pure code that may raise. *)
Definition result (A : Type) : Type := exn + A.

#[export] Instance result_monad : PyMonad result := {|
  ret := fun A a => inr a;
  bind := fun A B c k => match c with inl e => inl e | inr a => k a end;
  raise := fun A e => inl e
|}.

(** Code that may raise and that acts on a store of type [S]. *)
Definition eff (S A : Type) : Type := S -> result A * S.

#[export] Instance eff_monad (S : Type) : PyMonad (eff S) := {|
  ret := fun A a s => (inr a, s);
  bind := fun A B c k s =>
    match c s with
    | (inl e, s') => (inl e, s')
    | (inr a, s') => k a s'
    end;
  raise := fun A e s => (inl e, s)
|}.

Definition lift {S A} (r : result A) : eff S A := fun s => (r, s).
Definition get {S} : eff S S := fun s => (inr s, s).
Definition put {S} (s : S) : eff S unit := fun _ => (inr tt, s).

(** [try: c except e: h] *)
Definition try_except {S A} (c : eff S A) (e : exn) (h : eff S A) : eff S A :=
  fun s =>
    match c s with
    | (inl e', s') => if decide (e' = e) then h s' else (inl e', s')
    | r => r
    end.

(** [assert b], as run without [-O] *)
Definition assert {m} `{PyMonad m} (b : bool) : m unit :=
  if b then ret tt else raise AssertionError.

(** [for x in xs: body x] *)
Fixpoint for_ {m} `{PyMonad m} {A} (xs : list A) (body : A -> m unit) : m unit :=
  match xs with
  | [] => ret tt
  | x :: xs' => do_ body x; for_ xs' body
  end.

(** [[f x for x in xs]] *)
Fixpoint comprehension {m} `{PyMonad m} {A B} (f : A -> m B) (xs : list A) : m (list B) :=
  match xs with
  | [] => ret []
  | x :: xs' => do y <- f x; do ys <- comprehension f xs'; ret (y :: ys)
  end.

(** [d[k]] on a dict. *)
Definition getitem {K} `{Countable K} {V} (d : gmap K V) (k : K) : result V :=
  match d !! k with
  | Some v => inr v
  | None => inl KeyError
  end.

(** [x in c] where [c] may be [None]: the membership test against [None]
    raises [TypeError]. *)
Definition contains_opt {A} `{EqDecision A} (c : option (list A)) (x : A) : result bool :=
  match c with
  | None => inl TypeError
  | Some l => inr (bool_decide (x ∈ l))
  end.

(** [l.index(x)]: position of the first element equal to [x]. *)
Fixpoint index {A} `{EqDecision A} (l : list A) (x : A) : result nat :=
  match l with
  | [] => inl ValueError
  | y :: l' => if decide (y = x) then inr 0%nat
               else match index l' x with
                    | inr i => inr (S i)
                    | inl e => inl e
                    end
  end.

(** ** [os.path] on POSIX paths *)

Module os_path.

Definition sep : ascii := "/"%char.

(** [p.rfind(c)]: position of the last occurrence of [c], if any. *)
Fixpoint rfind (c : ascii) (p : string) : option nat :=
  match p with
  | EmptyString => None
  | String a r =>
      match rfind c r with
      | Some i => Some (S i)
      | None => if Ascii.eqb a c then Some 0%nat else None
      end
  end.

Fixpoint drop (n : nat) (p : string) : string :=
  match n, p with
  | O, _ => p
  | S n', String _ r => drop n' r
  | S _, EmptyString => EmptyString
  end.

Fixpoint take (n : nat) (p : string) : string :=
  match n, p with
  | S n', String a r => String a (take n' r)
  | _, _ => EmptyString
  end.

Definition startswith_sep (p : string) : bool :=
  match p with
  | String a _ => Ascii.eqb a sep
  | EmptyString => false
  end.

Fixpoint endswith_sep (p : string) : bool :=
  match p with
  | EmptyString => false
  | String a EmptyString => Ascii.eqb a sep
  | String _ r => endswith_sep r
  end.

(** One step of the loop of [posixpath.join]. *)
Definition join2 (path b : string) : string :=
  if startswith_sep b then b
  else if (String.eqb path "" || endswith_sep path)%bool then path +:+ b
  else path +:+ "/" +:+ b.

(** [os.path.join(a, *p)] *)
Definition join (a : string) (p : list string) : string :=
  fold_left join2 p a.

(** [os.path.basename(p)] *)
Definition basename (p : string) : string :=
  match rfind sep p with
  | Some i => drop (S i) p
  | None => p
  end.

(** Is some character of [p] between positions [lo] (included) and [hi]
    (excluded) not a dot? *)
Fixpoint has_non_dot (lo hi : nat) (p : string) : bool :=
  match p, hi with
  | EmptyString, _ => false
  | _, O => false
  | String a r, S hi' =>
      match lo with
      | O => (negb (Ascii.eqb a "."%char) || has_non_dot O hi' r)%bool
      | S lo' => has_non_dot lo' hi' r
      end
  end.

(** [os.path.splitext(p)]: the extension starts at the last dot of the
    last path component, leading dots of that component set aside. *)
Definition splitext (p : string) : string * string :=
  let filename_index := match rfind sep p with Some i => S i | None => O end in
  match rfind "."%char p with
  | Some dot_index =>
      if (Nat.leb filename_index dot_index
          && has_non_dot filename_index dot_index p)%bool
      then (take dot_index p, drop dot_index p)
      else (p, "")
  | None => (p, "")
  end.

End os_path.

(** ** The data model read from a NetCDF file

    The class [NCDataModel] is consumed, not defined, by the writers; the
    records below list the attributes and methods the writers use. *)

Inductive np_dtype : Type :=
  | np_int8 | np_int16 | np_int32 | np_int64
  | np_uint8 | np_float32 | np_float64.

#[export] Instance np_dtype_eq_dec : EqDecision np_dtype.
Proof. solve_decision. Defined.

(** [np.iinfo(dtype).max]; [np.iinfo] rejects the floating point types. *)
Definition iinfo_max (d : np_dtype) : result Z :=
  match d with
  | np_int8 => inr 127
  | np_int16 => inr 32767
  | np_int32 => inr 2147483647
  | np_int64 => inr 9223372036854775807
  | np_uint8 => inr 255
  | np_float32 | np_float64 => inl ValueError
  end.

(** Chunk hint of a variable: one tile size per dimension. *)
Definition chunks : Type := list Z.

(** A NetCDF variable: its name, dimension names, shape, dtype and
    attributes (the names [ncattrs()] and the values [getncattr(k)]).  The
    payload [data_var[...]] has the shape [shape] and is not modelled
    further. *)
Record Variable_ : Type := {
  name : string;
  dimensions : list string;
  shape : list Z;
  dtype : np_dtype;
  ncattrs : list string;
  getncattr : string -> string
}.

Record NCDataModel : Type := {
  netcdf_filename : string;
  data_var_names : list string;
  _ncds_vars : gmap string Variable_;
  domains : list (list string);
  domain_varname_mapping : gmap (list string) (list string);
  varname_domain_mapping : gmap string (list string);
  unlimited_dim_coords : list string;
  get_chunks : string -> chunks
}.

(** ** The TileDB backend, as the writer drives it

    The backend is a store of dense arrays keyed by their path.  An array
    keeps the schema it was created with, the coordinate ranges assigned to
    it so far (oldest first) and its metadata.  [Array.create] refuses a path
    that already holds an array and [open] a path that holds none.  [Dim],
    [Attr], [Domain] and [ArraySchema] are the records of the arguments the
    writer passes; the checks the backend makes on them and on a write are
    not modelled, a write to an open array is recorded as issued. *)

Module tiledb.

Record Dim : Type := {
  dim_name : string;
  dim_domain : Z * Z;
  dim_tile : chunks;
  dim_dtype : np_dtype
}.

Record Attr : Type := { attr_name : string; attr_dtype : np_dtype }.

Record ArraySchema : Type := {
  schema_domain : list Dim;
  schema_sparse : bool;
  schema_attrs : list Attr
}.

(** [slice(start, stop)] *)
Definition slice : Type := Z * Z.

Record Array : Type := {
  schema : ArraySchema;
  written : list (list slice);
  meta : gmap string string
}.

Record store : Type := {
  dirs : gset string;
  groups : gset string;
  arrays : gmap string Array
}.

Definition empty : store := {| dirs := ∅; groups := ∅; arrays := ∅ |}.

(** [os.makedirs(p)] *)
Definition makedirs (p : string) : eff store unit := fun s =>
  if decide (p ∈ dirs s) then (inl FileExistsError, s)
  else (inr tt, {| dirs := {[p]} ∪ dirs s; groups := groups s; arrays := arrays s |}).

(** [tiledb.group_create(p)] *)
Definition group_create (p : string) : eff store unit := fun s =>
  if decide (p ∈ groups s) then (inl TileDBError, s)
  else (inr tt, {| dirs := dirs s; groups := {[p]} ∪ groups s; arrays := arrays s |}).

(** [tiledb.Array.create(p, schema)] *)
Definition Array_create (p : string) (sch : ArraySchema) : eff store unit := fun s =>
  match arrays s !! p with
  | Some _ => (inl TileDBError, s)
  | None =>
      (inr tt, {| dirs := dirs s; groups := groups s;
                  arrays := <[p := {| schema := sch; written := []; meta := ∅ |}]> (arrays s) |})
  end.

(** [tiledb.open(p, 'w')] *)
Definition open (p : string) : eff store unit := fun s =>
  match arrays s !! p with
  | Some _ => (inr tt, s)
  | None => (inl TileDBError, s)
  end.

Definition write (idx : list slice) (a : Array) : Array :=
  {| schema := schema a; written := written a ++ [idx]; meta := meta a |}.

Definition set_meta (k v : string) (a : Array) : Array :=
  {| schema := schema a; written := written a; meta := <[k := v]> (meta a) |}.

Definition update (p : string) (f : Array -> Array) : eff store unit := fun s =>
  (inr tt, {| dirs := dirs s; groups := groups s; arrays := alter f p (arrays s) |}).

(** [A[idx] = data] on the array opened at [p] *)
Definition setitem (p : string) (idx : list slice) : eff store unit :=
  update p (write idx).

(** [A.meta[k] = v] on the array opened at [p] *)
Definition meta_setitem (p : string) (k v : string) : eff store unit :=
  update p (set_meta k v).

(** The extent of an array along [axis]: one past the highest coordinate
    assigned so far (0 for an array never written). *)
Definition stop_at (axis : nat) (idx : list slice) : Z :=
  match idx !! axis with
  | Some (_, stop) => stop
  | None => 0
  end.

Definition extent (a : Array) (axis : nat) : Z :=
  fold_right Z.max 0 (map (stop_at axis) (written a)).

End tiledb.

(** ** Python list indexing with an [int] *)

Definition norm_index {A} (l : list A) (i : Z) : result nat :=
  let n := Z.of_nat (length l) in
  let j := if i <? 0 then i + n else i in
  if ((0 <=? j) && (j <? n))%bool then inr (Z.to_nat j) else inl IndexError.

(** [l[i]] *)
Definition list_getitem {A} (l : list A) (i : Z) : result A :=
  do j <- norm_index l i;
  match l !! j with
  | Some x => ret x
  | None => raise IndexError
  end.

(** [l[i] = x] *)
Definition list_setitem {A} (l : list A) (i : Z) (x : A) : result (list A) :=
  do j <- norm_index l i;
  ret (<[j := x]> l).

(** The [start_index] argument of [populate_array]: an [int] or a list. *)
Inductive start_index_t : Type :=
  | IntIndex (i : Z)
  | SeqIndex (l : list Z).

(** The [append_dim] argument of [append]: a dimension name or an [int]. *)
Inductive append_dim_t : Type :=
  | DimName (s : string)
  | DimIndex (i : Z).

(** [append_dim in dims] for a tuple [dims] of dimension names: an [int] is
    equal to no name. *)
Definition dim_in (d : append_dim_t) (dims : list string) : bool :=
  match d with
  | DimName s => bool_decide (s ∈ dims)
  | DimIndex _ => false
  end.

(** ** class TDBWriter *)

Module TDBWriter.

Record t : Type := {
  data_model : NCDataModel;
  tiledb_filepath : string;
  unlimited_dims : option (list string);
  _tiledb_array_name : option string;
  array_name : string
}.

Definition __init__ (data_model : NCDataModel) (tiledb_filepath : string)
    (tiledb_array_name : option string) (unlimited_dims : option (list string)) : t :=
  {| data_model := data_model;
     tiledb_filepath := tiledb_filepath;
     unlimited_dims := unlimited_dims;
     _tiledb_array_name := tiledb_array_name;
     array_name :=
       match tiledb_array_name with
       | None => os_path.basename (fst (os_path.splitext (netcdf_filename data_model)))
       | Some n => n
       end |}.

Definition _public_domain_name (self : t) (domain : list string) : result string :=
  do domain_index <- index (domains (data_model self)) domain;
  ret ("domain_" +:+ pretty domain_index).

Definition _create_tdb_directory (self : t) (group_dirname : string)
    : eff tiledb.store unit :=
  try_except (tiledb.makedirs group_dirname) FileExistsError (ret tt).

Definition _create_tdb_dim (self : t) (dim_name : string) : result tiledb.Dim :=
  do dim_coord <- getitem (_ncds_vars (data_model self)) dim_name;
  let chunks := get_chunks (data_model self) dim_name in
  do dim_coord_len <-
    match shape dim_coord with
    | [n] => ret n
    | _ => raise ValueError
    end;
  let dim_dtype := np_int64 in
  do is_unlimited <- contains_opt (unlimited_dims self) dim_name;
  do domain_max <-
    (if is_unlimited then
       do m <- iinfo_max dim_dtype; ret (m - dim_coord_len)
     else if bool_decide (dim_name ∈ unlimited_dim_coords (data_model self)) then
       do m <- iinfo_max dim_dtype; ret (m - dim_coord_len)
     else ret dim_coord_len);
  ret {| tiledb.dim_name := dim_name;
         tiledb.dim_domain := (0, domain_max);
         tiledb.dim_tile := chunks;
         tiledb.dim_dtype := dim_dtype |}.

Definition _create_tdb_attrs (self : t) (data_vars : list string)
    : result (list tiledb.Attr) :=
  comprehension (fun phenom_name =>
    do data_var <- getitem (_ncds_vars (data_model self)) phenom_name;
    let phenom := {| tiledb.attr_name := phenom_name;
                     tiledb.attr_dtype := dtype data_var |} in
    ret phenom) data_vars.

Definition create_domain_arrays (self : t) (domain_vars : list string)
    (group_dirname : string) : eff tiledb.store unit :=
  for_ domain_vars (fun var_name =>
    do data_var <- lift (getitem (_ncds_vars (data_model self)) var_name);
    let data_var_dims := dimensions data_var in
    do array_dims <- lift (comprehension (_create_tdb_dim self) data_var_dims);
    let tdb_domain := array_dims in
    let attr := {| tiledb.attr_name := var_name; tiledb.attr_dtype := dtype data_var |} in
    let array_filename := os_path.join group_dirname [var_name] in
    let schema := {| tiledb.schema_domain := tdb_domain;
                     tiledb.schema_sparse := false;
                     tiledb.schema_attrs := [attr] |} in
    tiledb.Array_create array_filename schema).

Definition _array_indices (self : t) (data_var : Variable_)
    (start_index : start_index_t) : list tiledb.slice :=
  let shape := shape data_var in
  let start_index :=
    match start_index with
    | IntIndex i => replicate (length shape) i
    | SeqIndex l => l
    end in
  map (fun '(dim, start_ind) => (start_ind, dim + start_ind)) (zip shape start_index).

Definition populate_array (self : t) (var_name : string) (data_var : Variable_)
    (group_dirname : string) (start_index : start_index_t) (write_meta : bool)
    : eff tiledb.store unit :=
  let var_name := name data_var in
  let array_filename := os_path.join group_dirname [var_name] in
  do_ tiledb.open array_filename;
  let write_indices := _array_indices self data_var start_index in
  do_ tiledb.setitem array_filename write_indices;
  if write_meta then
    for_ (ncattrs data_var) (fun ncattr =>
      tiledb.meta_setitem array_filename ncattr (getncattr data_var ncattr))
  else ret tt.

Definition populate_domain_arrays (self : t) (domain_vars : list string)
    (group_dirname : string) : eff tiledb.store unit :=
  for_ domain_vars (fun var_name =>
    do data_var <- lift (getitem (_ncds_vars (data_model self)) var_name);
    populate_array self var_name data_var group_dirname (IntIndex 0) true).

Definition create_domains (self : t) : eff tiledb.store unit :=
  for_ (domains (data_model self)) (fun domain =>
    do domain_vars <- lift (getitem (domain_varname_mapping (data_model self)) domain);
    do domain_name <- lift (_public_domain_name self domain);
    let group_dirname :=
      os_path.join (tiledb_filepath self) [array_name self; domain_name] in
    do_ _create_tdb_directory self group_dirname;
    do_ tiledb.group_create group_dirname;
    do_ create_domain_arrays self domain_vars group_dirname;
    populate_domain_arrays self domain_vars group_dirname).

Definition append (self : t) (other_data_model : NCDataModel) (var_name : string)
    (append_dim : append_dim_t) : eff tiledb.store unit :=
  do_ assert (bool_decide (var_name ∈ data_var_names (data_model self)));
  do_ assert (bool_decide (var_name ∈ data_var_names other_data_model));
  do self_data_var <- lift (getitem (_ncds_vars (data_model self)) var_name);
  do other_data_var <- lift (getitem (_ncds_vars other_data_model) var_name);
  do_ assert (dim_in append_dim (dimensions self_data_var));
  do_ assert (dim_in append_dim (dimensions other_data_var));
  do_ assert (bool_decide (dimensions self_data_var = dimensions other_data_var));
  do domain <- lift (getitem (varname_domain_mapping (data_model self)) var_name);
  do domain_name <- lift (_public_domain_name self domain);
  let domain_path :=
    os_path.join (tiledb_filepath self) [array_name self; domain_name] in
  do append_dim <-
    lift (match append_dim with
          | DimIndex i => ret i
          | DimName s => do i <- index (dimensions self_data_var) s; ret (Z.of_nat i)
          end);
  do append_dim_offset <- lift (list_getitem (shape self_data_var) append_dim);
  let offsets := replicate (length (shape self_data_var)) 0 in
  do offsets <- lift (list_setitem offsets append_dim append_dim_offset);
  populate_array self var_name other_data_var domain_path (SeqIndex offsets) false.

End TDBWriter.

(** ** The Zarr backend, as the writer drives it

    A store maps the path of a group to its member arrays.  An array has a
    shape and keeps the calls of its [append] method (the axis and the shape
    of the appended payload, oldest first). *)

Module zarr.

Record Array : Type := {
  arr_shape : list Z;
  appended : list (nat * list Z)
}.

Abbreviation store := (gmap string (gmap string Array)).

(** [a.append(data, axis=axis)]: the shapes must agree on every other
    axis; the array grows by the payload's extent along [axis]. *)
Definition Array_append (data_shape : list Z) (axis : nat) (a : Array) : result Array :=
  if decide (delete axis (arr_shape a) = delete axis data_shape) then
    do new_shape <-
      match arr_shape a !! axis with
      | None => ret (arr_shape a)
      | Some n =>
          match data_shape !! axis with
          | Some m => ret (<[axis := n + m]> (arr_shape a))
          | None => raise IndexError
          end
      end;
    ret {| arr_shape := new_shape; appended := appended a ++ [(axis, data_shape)] |}
  else raise ValueError.

(** [getattr(group, member)] on an open group, or on [None]. *)
Definition group_getattr (group : option string) (member : string) (s : store)
    : result Array :=
  match group with
  | None => inl AttributeError
  | Some path =>
      match s !! path with
      | None => inl AttributeError
      | Some members =>
          match members !! member with
          | Some a => inr a
          | None => inl AttributeError
          end
      end
  end.

Definition getattr_member (group : option string) (member : string) : eff store Array :=
  fun s => (group_getattr group member s, s).

(** [getattr(group, member).append(data, axis=axis)] *)
Definition member_append (group : option string) (member : string)
    (data_shape : list Z) (axis : nat) : eff store unit := fun s =>
  match group with
  | None => (inl AttributeError, s)
  | Some path =>
      match s !! path with
      | None => (inl AttributeError, s)
      | Some members =>
          match members !! member with
          | None => (inl AttributeError, s)
          | Some a =>
              match Array_append data_shape axis a with
              | inl e => (inl e, s)
              | inr a' => (inr tt, <[path := <[member := a']> members]> s)
              end
          end
      end
  end.

(** The member array [member] of the group stored at [path]. *)
Definition member (s : store) (path member : string) : option Array :=
  match s !! path with
  | Some members => members !! member
  | None => None
  end.

(** The value of an attribute of a dataset: the value of a NetCDF
    attribute, or a tuple of dimension names. *)
Inductive attr_value : Type :=
  | AttrValue (v : string)
  | AttrNames (names : list string).

(** What a dataset was created with and has been given since: chunks and
    dtype, its attributes, and the shapes of the payloads assigned to the
    whole of it (oldest first). *)
Record Dataset : Type := {
  ds_chunks : chunks;
  ds_dtype : np_dtype;
  ds_attrs : gmap string attr_value;
  ds_assigned : list (list Z)
}.

(** The containers on disk: the member arrays of each group, and what each
    of them was created with. *)
Record files : Type := {
  arrays : store;
  datasets : gmap string (gmap string Dataset)
}.

(** The members of the group at [path]; a directory store that has not been
    written to has none. *)
Definition members_of {A} (m : gmap string (gmap string A)) (path : string)
    : gmap string A :=
  default ∅ (m !! path).

(** [zarr.group(store=zarr.DirectoryStore(path))]: the group at [path],
    initialised if there is none. *)
Definition open_group (path : string) : eff files unit := fun s =>
  (inr tt,
   {| arrays := <[path := members_of (arrays s) path]> (arrays s);
      datasets := <[path := members_of (datasets s) path]> (datasets s) |}).

(** [group.create_dataset(name, shape=shape, chunks=chunks, dtype=dtype)]:
    refused with [ContainsArrayError], a [ValueError], when the group has a
    member of that name; [group] may be [None].  The array returned is
    named by the path of its group and its own name. *)
Definition create_dataset (group : option string) (name : string) (shape : list Z)
    (chunks : chunks) (dtype : np_dtype) : eff files (string * string) := fun s =>
  match group with
  | None => (inl AttributeError, s)
  | Some path =>
      match members_of (arrays s) path !! name with
      | Some _ => (inl ValueError, s)
      | None =>
          (inr (path, name),
           {| arrays :=
                <[path := <[name := {| arr_shape := shape; appended := [] |}]>
                            (members_of (arrays s) path)]> (arrays s);
              datasets :=
                <[path := <[name := {| ds_chunks := chunks; ds_dtype := dtype;
                                       ds_attrs := ∅; ds_assigned := [] |}]>
                            (members_of (datasets s) path)]> (datasets s) |})
      end
  end.

Definition update_dataset (path name : string) (f : Dataset -> Dataset)
    : eff files unit := fun s =>
  (inr tt,
   {| arrays := arrays s;
      datasets := <[path := alter f name (members_of (datasets s) path)]> (datasets s) |}).

(** [data_array[:] = data] on the dataset [name] of the group at [path] *)
Definition assign_all (path name : string) (data_shape : list Z) : eff files unit :=
  update_dataset path name (fun d =>
    {| ds_chunks := ds_chunks d; ds_dtype := ds_dtype d; ds_attrs := ds_attrs d;
       ds_assigned := ds_assigned d ++ [data_shape] |}).

(** [data_array.attrs[k] = v] on the dataset [name] of the group at [path] *)
Definition attrs_setitem (path name : string) (k : string) (v : attr_value)
    : eff files unit :=
  update_dataset path name (fun d =>
    {| ds_chunks := ds_chunks d; ds_dtype := ds_dtype d;
       ds_attrs := <[k := v]> (ds_attrs d); ds_assigned := ds_assigned d |}).

(** The dataset record of member [name] of the group at [path]. *)
Definition dataset (s : files) (path name : string) : option Dataset :=
  members_of (datasets s) path !! name.

End zarr.

(** ** class ZarrWriter

    An instance is a set of attributes each of which is either bound or not
    yet bound; reading an attribute that is not bound raises
    [AttributeError]. *)

Module ZarrWriter.

Record t : Type := {
  data_model : option NCDataModel;
  filepath : option string;
  _group_name : option (option string);
  group_name : option string;
  array_filename : option string;
  group : option (option string);
  zarray : option (option unit)
}.

(** The object [__init__] receives: no attribute bound. *)
Definition new : t :=
  {| data_model := None; filepath := None; _group_name := None; group_name := None;
     array_filename := None; group := None; zarray := None |}.

(** [self.attr] *)
Definition getattr {S A} (attr : option A) : eff S A := fun s =>
  match attr with
  | Some v => (inr v, s)
  | None => (inl AttributeError, s)
  end.

(** [self.attr] inside a method that is binding the attributes of [self] *)
Definition read {A} (attr : t -> option A) : eff t A := fun self =>
  getattr (attr self) self.

Definition set_data_model (v : NCDataModel) : eff t unit := fun self =>
  (inr tt, {| data_model := Some v; filepath := filepath self;
              _group_name := _group_name self; group_name := group_name self;
              array_filename := array_filename self; group := group self;
              zarray := zarray self |}).

Definition set_filepath (v : string) : eff t unit := fun self =>
  (inr tt, {| data_model := data_model self; filepath := Some v;
              _group_name := _group_name self; group_name := group_name self;
              array_filename := array_filename self; group := group self;
              zarray := zarray self |}).

Definition set__group_name (v : option string) : eff t unit := fun self =>
  (inr tt, {| data_model := data_model self; filepath := filepath self;
              _group_name := Some v; group_name := group_name self;
              array_filename := array_filename self; group := group self;
              zarray := zarray self |}).

Definition set_group_name (v : string) : eff t unit := fun self =>
  (inr tt, {| data_model := data_model self; filepath := filepath self;
              _group_name := _group_name self; group_name := Some v;
              array_filename := array_filename self; group := group self;
              zarray := zarray self |}).

Definition set_array_filename (v : string) : eff t unit := fun self =>
  (inr tt, {| data_model := data_model self; filepath := filepath self;
              _group_name := _group_name self; group_name := group_name self;
              array_filename := Some v; group := group self;
              zarray := zarray self |}).

Definition set_group (v : option string) : eff t unit := fun self =>
  (inr tt, {| data_model := data_model self; filepath := filepath self;
              _group_name := _group_name self; group_name := group_name self;
              array_filename := array_filename self; group := Some v;
              zarray := zarray self |}).

Definition set_zarray (v : option unit) : eff t unit := fun self =>
  (inr tt, {| data_model := data_model self; filepath := filepath self;
              _group_name := _group_name self; group_name := group_name self;
              array_filename := array_filename self; group := group self;
              zarray := Some v |}).

(** [cwd] is [os.path.abspath(".")], the working directory of the
    process; the [print] of the file name is left out. *)
Definition __init__ (cwd : string) (data_model_arg : NCDataModel) (filepath_arg : string)
    (group_name_arg : option string) : eff t unit :=
  do_ set_data_model data_model_arg;
  do_ set_filepath filepath_arg;
  do_ set__group_name group_name_arg;
  do gn <- read _group_name;
  do_ (match gn with
       | None =>
           do dm <- read data_model;
           set_group_name (os_path.basename (fst (os_path.splitext (netcdf_filename dm))))
       | Some _ =>
           do g <- read group_name;
           set_group_name g
       end);
  do fp <- read filepath;
  do g <- read group_name;
  do_ set_array_filename (os_path.join cwd [fp; g] +:+ ".zarr");
  do_ set_group None;
  set_zarray None.

(** [ZarrWriter(data_model, filepath, group_name)] *)
Definition construct (cwd : string) (data_model_arg : NCDataModel) (filepath_arg : string)
    (group_name_arg : option string) : result t :=
  match __init__ cwd data_model_arg filepath_arg group_name_arg new with
  | (inr _, self) => inr self
  | (inl e, _) => inl e
  end.

(** The body of the loop of [append], for one member of the group. *)
Definition append_member (self : t) (other_data_model : NCDataModel)
    (group_name : string) : eff zarr.store unit :=
  do grp <- getattr (group self);
  do self_array <- zarr.getattr_member grp group_name;
  do other_var <- lift (getitem (_ncds_vars other_data_model) group_name);
  let axis := 0%nat in
  zarr.member_append grp group_name (shape other_var) axis.

Definition append (self : t) (other_data_model : NCDataModel)
    (group_name_arg : option string) : eff zarr.store unit :=
  do dm <- getattr (data_model self);
  do_ (match group_name_arg with
       | Some g => assert (bool_decide (g ∈ data_var_names dm))
       | None => assert (bool_decide (data_var_names dm = data_var_names other_data_model))
       end);
  let group_names :=
    match group_name_arg with
    | None => data_var_names other_data_model
    | Some g => [g]
    end in
  for_ group_names (append_member self other_data_model).

(** The methods that create the group act on the writer itself, whose
    [group] attribute they bind, and on the containers on disk. *)
Record state : Type := { self_ : t; files_ : zarr.files }.

Definition on_self {A} (c : eff t A) : eff state A := fun st =>
  match c (self_ st) with
  | (r, self') => (r, {| self_ := self'; files_ := files_ st |})
  end.

Definition on_files {A} (c : eff zarr.files A) : eff state A := fun st =>
  match c (files_ st) with
  | (r, files') => (r, {| self_ := self_ st; files_ := files' |})
  end.

Definition create_variable_datasets (var_names : list string) : eff state unit :=
  for_ var_names (fun var_name =>
    do dm <- on_self (read data_model);
    do nc_data_var <- lift (getitem (_ncds_vars dm) var_name);
    do dm' <- on_self (read data_model);
    let chunks := get_chunks dm' var_name in
    do grp <- on_self (read group);
    do data_array <-
      on_files (zarr.create_dataset grp var_name (shape nc_data_var) chunks
                  (dtype nc_data_var));
    do_ on_files (zarr.assign_all (fst data_array) (snd data_array) (shape nc_data_var));
    do_ for_ (ncattrs nc_data_var) (fun ncattr =>
          on_files (zarr.attrs_setitem (fst data_array) (snd data_array) ncattr
                      (zarr.AttrValue (getncattr nc_data_var ncattr))));
    on_files (zarr.attrs_setitem (fst data_array) (snd data_array) "_ARRAY_DIMENSIONS"
                (zarr.AttrNames (dimensions nc_data_var)))).

(** [unique_flat_keys] is a [set], iterated in an order Python does not
    fix; [flat_keys_order] is that order. *)
Definition create_zarr (flat_keys_order : list string) : eff state unit :=
  do store <- on_self (read array_filename);
  do_ on_files (zarr.open_group store);
  do_ on_self (set_group (Some store));
  do dm <- on_self (read data_model);
  do_ for_ (domains dm) (fun domain =>
        do dm' <- on_self (read data_model);
        do domain_vars <- lift (getitem (domain_varname_mapping dm') domain);
        create_variable_datasets domain_vars);
  do dm'' <- on_self (read data_model);
  create_variable_datasets flat_keys_order.

End ZarrWriter.

(** ** Vocabulary of the properties *)

(** [np.iinfo(np.int64).max] *)
Definition INT64_MAX : Z := 9223372036854775807.

(** A translated dimension starts at 0 and is indexed by int64. *)
Definition dim_normalized (d : tiledb.Dim) : Prop :=
  fst (tiledb.dim_domain d) = 0 /\ tiledb.dim_dtype d = np_int64.

(** Every dimension of every array of the store is normalized. *)
Definition store_normalized (s : tiledb.store) : Prop :=
  forall p a, tiledb.arrays s !! p = Some a ->
    Forall dim_normalized (tiledb.schema_domain (tiledb.schema a)).

(** Number of cells of an inclusive coordinate range. *)
Definition span (dom : Z * Z) : Z := snd dom - fst dom + 1.




(** Every run of [c], whether it returns or raises, takes a store to one
    related to it by [R]. *)
Definition preserves {S A} (R : S -> S -> Prop) (c : eff S A) : Prop :=
  forall s r s', c s = (r, s') -> R s s'.

(** Normalization carries over from one store to the other. *)
Definition keeps_normalized (s s' : tiledb.store) : Prop :=
  store_normalized s -> store_normalized s'.

(** No array is removed from the store. *)
Definition keeps_arrays (s s' : tiledb.store) : Prop :=
  forall p, is_Some (tiledb.arrays s !! p) -> is_Some (tiledb.arrays s' !! p).

(** Nothing changes but, possibly, the array at path [p]. *)
Definition touches_only (p : string) (s s' : tiledb.store) : Prop :=
  tiledb.dirs s' = tiledb.dirs s /\ tiledb.groups s' = tiledb.groups s /\
  forall q, q <> p -> tiledb.arrays s' !! q = tiledb.arrays s !! q.


(** The calls of [append] recorded in a member array. *)
Definition appended_calls (a : option zarr.Array) : list (nat * list Z) :=
  match a with
  | Some a => zarr.appended a
  | None => []
  end.

(** Going from [s] to [s'] no member array is lost, and each one records
    what it recorded before followed by calls of [append] that are all along
    axis 0. *)
Definition only_axis0_appends (s s' : zarr.store) : Prop :=
  forall path g,
    (is_Some (zarr.member s path g) -> is_Some (zarr.member s' path g)) /\
    exists calls,
      appended_calls (zarr.member s' path g)
      = (appended_calls (zarr.member s path g) ++ calls)%list /\
      Forall (fun call => fst call = 0%nat) calls.

(** The last call of [append] recorded by member [g] of the group at
    [path] is [call]. *)
Definition last_append_is (path g : string) (call : nat * list Z) (s : zarr.store) : Prop :=
  exists a, zarr.member s path g = Some a /\ last (zarr.appended a) = Some call.

(** Once member [g] of the group at [path] has [call] as its last recorded
    call, it keeps it. *)
Definition keeps_last_append (path g : string) (call : nat * list Z)
    (s s' : zarr.store) : Prop :=
  last_append_is path g call s -> last_append_is path g call s'.

(** ** A small data set used to run the writers

    One domain [(time, lat, lon)] with the variable [temp]; [time] has
    [tlen] entries and chunk size 5. *)

Definition example_variable (n : string) (dims : list string) (shp : list Z) : Variable_ :=
  {| name := n; dimensions := dims; shape := shp; dtype := np_float32;
     ncattrs := ["units"]; getncattr := fun _ => "K" |}.

Definition example_model (tlen : Z) : NCDataModel :=
  {| netcdf_filename := "/data/forecast.nc";
     data_var_names := ["temp"];
     _ncds_vars :=
       <["temp" := example_variable "temp" ["time"; "lat"; "lon"] [tlen; 3; 4]]>
       (<["time" := example_variable "time" ["time"] [tlen]]>
       (<["lat" := example_variable "lat" ["lat"] [3]]>
       (<["lon" := example_variable "lon" ["lon"] [4]]> ∅)));
     domains := [["time"; "lat"; "lon"]];
     domain_varname_mapping := {[ ["time"; "lat"; "lon"] := ["temp"] ]};
     varname_domain_mapping := {[ "temp" := ["time"; "lat"; "lon"] ]};
     unlimited_dim_coords := [];
     get_chunks := fun _ => [5] |}.

(** The same data set with a dimension [bnds] that has no coordinate
    variable, as NetCDF allows. *)
Definition example_model_bnds : NCDataModel :=
  {| netcdf_filename := "/data/forecast.nc";
     data_var_names := ["time_bnds"];
     _ncds_vars :=
       <["time_bnds" := example_variable "time_bnds" ["time"; "bnds"] [10; 2]]>
       (<["time" := example_variable "time" ["time"] [10]]> ∅);
     domains := [["time"; "bnds"]];
     domain_varname_mapping := {[ ["time"; "bnds"] := ["time_bnds"] ]};
     varname_domain_mapping := {[ "time_bnds" := ["time"; "bnds"] ]};
     unlimited_dim_coords := ["time"];
     get_chunks := fun _ => [5] |}.

(** A writer of the example with [time] declared unlimited. *)
Definition example_writer : TDBWriter.t :=
  TDBWriter.__init__ (example_model 10) "out" None (Some ["time"]).

(** A writer built with the default [unlimited_dims=None]. *)
Definition default_writer (dm : NCDataModel) : TDBWriter.t :=
  TDBWriter.__init__ dm "out" None None.

Definition example_path : string := "out/forecast/domain_0/temp".

(** The store after [create_domains], and after one and two appends of
    four more time steps. *)
Definition store_created : tiledb.store :=
  snd (TDBWriter.create_domains example_writer tiledb.empty).

Definition store_appended_once : tiledb.store :=
  snd (TDBWriter.append example_writer (example_model 4) "temp" (DimName "time")
         store_created).


(** The array [create_domains] makes for [temp]. *)
Definition example_created_array : tiledb.Array :=
  {| tiledb.schema :=
       {| tiledb.schema_domain :=
            [ {| tiledb.dim_name := "time"; tiledb.dim_domain := (0, INT64_MAX - 10);
                 tiledb.dim_tile := [5]; tiledb.dim_dtype := np_int64 |};
              {| tiledb.dim_name := "lat"; tiledb.dim_domain := (0, 3);
                 tiledb.dim_tile := [5]; tiledb.dim_dtype := np_int64 |};
              {| tiledb.dim_name := "lon"; tiledb.dim_domain := (0, 4);
                 tiledb.dim_tile := [5]; tiledb.dim_dtype := np_int64 |} ];
          tiledb.schema_sparse := false;
          tiledb.schema_attrs :=
            [ {| tiledb.attr_name := "temp"; tiledb.attr_dtype := np_float32 |} ] |};
     tiledb.written := [[(0, 10); (0, 3); (0, 4)]];
     tiledb.meta := {[ "units" := "K" ]} |}.

(** A Zarr writer of the example whose group has been created at
    [/home/user/out/forecast.zarr] with the member [temp]. *)
Definition example_zarr_writer : ZarrWriter.t :=
  {| ZarrWriter.data_model := Some (example_model 10);
     ZarrWriter.filepath := Some "out";
     ZarrWriter._group_name := Some None;
     ZarrWriter.group_name := Some "forecast";
     ZarrWriter.array_filename := Some "/home/user/out/forecast.zarr";
     ZarrWriter.group := Some (Some "/home/user/out/forecast.zarr");
     ZarrWriter.zarray := Some None |}.

Definition example_zarr_store : zarr.store :=
  {[ "/home/user/out/forecast.zarr" :=
       {[ "temp" := {| zarr.arr_shape := [10; 3; 4]; zarr.appended := [] |} ]} ]}.

(** ** Vocabulary of the further properties *)

(** Every array of [s] is in [s'] exactly as it was. *)
Definition existing_unchanged (s s' : tiledb.store) : Prop :=
  forall p a, tiledb.arrays s !! p = Some a -> tiledb.arrays s' !! p = Some a.

(** Nothing is removed: directories, groups and arrays of [s] are still in
    [s']. *)
Definition nothing_removed (s s' : tiledb.store) : Prop :=
  tiledb.dirs s ⊆ tiledb.dirs s' /\ tiledb.groups s ⊆ tiledb.groups s' /\
  keeps_arrays s s'.

(** The array at [p] is the same in both stores. *)
Definition same_at (p : string) (s s' : tiledb.store) : Prop :=
  tiledb.arrays s' !! p = tiledb.arrays s !! p.

(** From [s] to [s'] the only change is that arrays may have been written
    to: the same directories, groups and array paths, and each array with
    the schema and metadata it had and the writes it had, followed by
    further ones. *)
Definition only_written (s s' : tiledb.store) : Prop :=
  tiledb.dirs s' = tiledb.dirs s /\ tiledb.groups s' = tiledb.groups s /\
  forall p,
    match tiledb.arrays s !! p, tiledb.arrays s' !! p with
    | Some a, Some a' =>
        tiledb.schema a' = tiledb.schema a /\ tiledb.meta a' = tiledb.meta a /\
        exists more, tiledb.written a' = tiledb.written a ++ more
    | None, None => True
    | _, _ => False
    end.





(** ** Vocabulary of the properties of the Zarr group *)

(** The member array [create_variable_datasets] makes for a variable. *)
Definition written_member (v : Variable_) : zarr.Array :=
  {| zarr.arr_shape := shape v; zarr.appended := [] |}.

(** The attributes a dataset is given: those of the variable, in the order
    of [ncattrs()], and then the names of its dimensions. *)
Definition written_attrs (v : Variable_) : gmap string zarr.attr_value :=
  <["_ARRAY_DIMENSIONS" := zarr.AttrNames (dimensions v)]>
    (foldl (fun m k => <[k := zarr.AttrValue (getncattr v k)]> m) ∅ (ncattrs v)).

(** The dataset [create_variable_datasets] leaves for the variable filed
    under [var_name]. *)
Definition written_dataset (dm : NCDataModel) (var_name : string) (v : Variable_)
    : zarr.Dataset :=
  {| zarr.ds_chunks := get_chunks dm var_name;
     zarr.ds_dtype := dtype v;
     zarr.ds_attrs := written_attrs v;
     zarr.ds_assigned := [shape v] |}.

(** The writer is the same and every member array there was is still there
    as it was, with the dataset record it had. *)
Definition members_unchanged (st st' : ZarrWriter.state) : Prop :=
  ZarrWriter.self_ st' = ZarrWriter.self_ st /\
  forall p q a,
    zarr.member (zarr.arrays (ZarrWriter.files_ st)) p q = Some a ->
    zarr.member (zarr.arrays (ZarrWriter.files_ st')) p q = Some a /\
    zarr.dataset (ZarrWriter.files_ st') p q = zarr.dataset (ZarrWriter.files_ st) p q.

(** The order in which the set of the dimension names of all domains is
    iterated: each name once. *)
Definition flat_keys_order_of (dm : NCDataModel) (order : list string) : Prop :=
  NoDup order /\
  forall k, k ∈ order <->
    exists domain, is_Some (domain_varname_mapping dm !! domain) /\ k ∈ domain.

(** The example writer as constructed, before any group exists. *)
Definition example_zarr_state : ZarrWriter.state :=
  {| ZarrWriter.self_ :=
       {| ZarrWriter.data_model := Some (example_model 10);
          ZarrWriter.filepath := Some "out";
          ZarrWriter._group_name := Some None;
          ZarrWriter.group_name := Some "forecast";
          ZarrWriter.array_filename := Some "/home/user/out/forecast.zarr";
          ZarrWriter.group := Some None;
          ZarrWriter.zarray := Some None |};
     ZarrWriter.files_ := {| zarr.arrays := ∅; zarr.datasets := ∅ |} |}.

(* ================================================================== *)
(** * Properties *)
(* ================================================================== *)

(** ** The exception monads *)

Lemma result_bind_inr {A B} (c : result A) (k : A -> result B) (b : B) :
  bind c k = inr b -> exists a, c = inr a /\ k a = inr b.
Proof. destruct c as [e|a]; simpl; [discriminate | eauto]. Qed.

Lemma eff_bind_inv {S A B} (c : eff S A) (k : A -> eff S B) s r s' :
  bind c k s = (r, s') ->
  (exists e, c s = (inl e, s') /\ r = inl e) \/
  (exists a s1, c s = (inr a, s1) /\ k a s1 = (r, s')).
Proof.
  simpl. destruct (c s) as [[e|a] s1] eqn:Hc; intros H.
  - left. exists e. by inversion H.
  - right. eauto.
Qed.

Lemma eff_bind_ok {S A B} (c : eff S A) (k : A -> eff S B) s a s1 :
  c s = (inr a, s1) -> bind c k s = k a s1.
Proof. simpl. by intros ->. Qed.

Lemma eff_bind_raise {S A B} (c : eff S A) (k : A -> eff S B) s e s1 :
  c s = (inl e, s1) -> bind c k s = (inl e, s1).
Proof. simpl. by intros ->. Qed.

(** ** Dimension translation *)

Section create_tdb_dim.
Variable self : TDBWriter.t.
Variable dim_name : string.
Variable dim_coord : Variable_.
Variable N : Z.
Hypothesis Hcoord : _ncds_vars (TDBWriter.data_model self) !! dim_name = Some dim_coord.
Hypothesis Hshape : shape dim_coord = [N].

Lemma create_tdb_dim_eval :
  TDBWriter._create_tdb_dim self dim_name =
  match TDBWriter.unlimited_dims self with
  | None => inl TypeError
  | Some l =>
      inr {| tiledb.dim_name := dim_name;
             tiledb.dim_domain :=
               (0, if (bool_decide (dim_name ∈ l)
                       || bool_decide (dim_name ∈ unlimited_dim_coords (TDBWriter.data_model self)))%bool
                   then INT64_MAX - N else N);
             tiledb.dim_tile := get_chunks (TDBWriter.data_model self) dim_name;
             tiledb.dim_dtype := np_int64 |}
  end.
Proof.
  unfold TDBWriter._create_tdb_dim, getitem. rewrite Hcoord. simpl. rewrite Hshape.
  destruct (TDBWriter.unlimited_dims self) as [l|]; simpl; [|done].
  destruct (bool_decide (dim_name ∈ l)); simpl; [done|].
  by destruct (bool_decide (dim_name ∈ unlimited_dim_coords _)).
Qed.

End create_tdb_dim.

Lemma create_tdb_dim_inv self dim_name d :
  TDBWriter._create_tdb_dim self dim_name = inr d ->
  exists dim_coord N l,
    _ncds_vars (TDBWriter.data_model self) !! dim_name = Some dim_coord /\
    shape dim_coord = [N] /\
    TDBWriter.unlimited_dims self = Some l.
Proof.
  intros H. unfold TDBWriter._create_tdb_dim, getitem in H.
  destruct (_ncds_vars _ !! dim_name) as [v|] eqn:Hv; simpl in H; [|discriminate].
  destruct (shape v) as [|n [|? ?]] eqn:Hs; simpl in H; try discriminate.
  destruct (TDBWriter.unlimited_dims self) as [l|] eqn:Hl; simpl in H; [|discriminate].
  by exists v, n, l.
Qed.

Lemma create_tdb_dim_normalized self dim_name d :
  TDBWriter._create_tdb_dim self dim_name = inr d -> dim_normalized d.
Proof.
  intros H. destruct (create_tdb_dim_inv _ _ _ H) as (v & n & l & Hv & Hs & Hl).
  rewrite (create_tdb_dim_eval _ _ _ _ Hv Hs), Hl in H.
  injection H as <-. by split.
Qed.

Lemma create_tdb_dim_bounded self dim_name dim_coord N l :
  _ncds_vars (TDBWriter.data_model self) !! dim_name = Some dim_coord ->
  shape dim_coord = [N] ->
  TDBWriter.unlimited_dims self = Some l ->
  dim_name ∉ l ->
  dim_name ∉ unlimited_dim_coords (TDBWriter.data_model self) ->
  exists d, TDBWriter._create_tdb_dim self dim_name = inr d /\
            tiledb.dim_domain d = (0, N) /\ span (tiledb.dim_domain d) = N + 1.
Proof.
  intros Hv Hs Hl Hn1 Hn2.
  rewrite (create_tdb_dim_eval _ _ _ _ Hv Hs), Hl.
  rewrite !bool_decide_eq_false_2 by done. simpl.
  eexists. split; [done|]. split; [done|]. unfold span. simpl. lia.
Qed.




(** ** Relations kept by every run of an effectful method *)

Section preserves.
Context {S : Type} (R : S -> S -> Prop) `{!Reflexive R, !Transitive R}.

Lemma preserves_ret {A} (a : A) : preserves R (ret a : eff S A).
Proof. intros s r s' [= _ <-]. reflexivity. Qed.

Lemma preserves_raise {A} e : preserves R (raise e : eff S A).
Proof. intros s r s' [= _ <-]. reflexivity. Qed.

Lemma preserves_lift {A} (c : result A) : preserves R (lift c : eff S A).
Proof. intros s r s' [= _ <-]. reflexivity. Qed.

Lemma preserves_assert b : preserves R (assert b : eff S unit).
Proof. destruct b; [apply preserves_ret | apply preserves_raise]. Qed.

Lemma preserves_bind {A B} (c : eff S A) (k : A -> eff S B) :
  preserves R c -> (forall a, preserves R (k a)) -> preserves R (bind c k).
Proof.
  intros Hc Hk s r s' H.
  apply eff_bind_inv in H as [(e & H & _)|(a & s1 & H1 & H2)].
  - by eapply Hc.
  - transitivity s1; [by eapply Hc | by eapply Hk].
Qed.

Lemma preserves_for {A} (xs : list A) (body : A -> eff S unit) :
  (forall x, x ∈ xs -> preserves R (body x)) -> preserves R (for_ xs body).
Proof.
  induction xs as [|x xs IH]; intros Hbody; simpl for_.
  - apply preserves_ret.
  - apply preserves_bind.
    + apply Hbody, list_elem_of_here.
    + intros _. apply IH. intros y Hy. by apply Hbody, list_elem_of_further.
Qed.

Lemma preserves_try_except {A} (c h : eff S A) e :
  preserves R c -> preserves R h -> preserves R (try_except c e h).
Proof.
  intros Hc Hh s r s' H. unfold try_except in H.
  destruct (c s) as [[e'|a] s1] eqn:Hcs.
  - destruct (decide (e' = e)).
    + transitivity s1; [by eapply Hc | by eapply Hh].
    + injection H as <- <-. by eapply Hc.
  - injection H as <- <-. by eapply Hc.
Qed.


End preserves.

#[local] Instance keeps_normalized_refl : Reflexive keeps_normalized.
Proof. by intros s H. Qed.

#[local] Instance keeps_normalized_trans : Transitive keeps_normalized.
Proof. intros s1 s2 s3 H12 H23 H. by apply H23, H12. Qed.

#[local] Instance keeps_arrays_refl : Reflexive keeps_arrays.
Proof. by intros s p H. Qed.

#[local] Instance keeps_arrays_trans : Transitive keeps_arrays.
Proof. intros s1 s2 s3 H12 H23 p H. by apply H23, H12. Qed.

(** ** What each backend call does to the arrays of the store *)

Lemma makedirs_arrays p s r s' :
  tiledb.makedirs p s = (r, s') -> tiledb.arrays s' = tiledb.arrays s.
Proof. unfold tiledb.makedirs. case_decide; by intros [= _ <-]. Qed.

Lemma group_create_arrays p s r s' :
  tiledb.group_create p s = (r, s') -> tiledb.arrays s' = tiledb.arrays s.
Proof. unfold tiledb.group_create. case_decide; by intros [= _ <-]. Qed.

Lemma Array_create_inv p sch s r s' :
  tiledb.Array_create p sch s = (r, s') ->
  (r = inl TileDBError /\ s' = s /\ is_Some (tiledb.arrays s !! p)) \/
  (r = inr tt /\ tiledb.arrays s !! p = None /\
   tiledb.arrays s' =
     <[p := {| tiledb.schema := sch; tiledb.written := []; tiledb.meta := ∅ |}]>
       (tiledb.arrays s)).
Proof.
  unfold tiledb.Array_create.
  destruct (tiledb.arrays s !! p) as [a|] eqn:Hp; intros [= <- <-].
  - left. by eauto.
  - right. by eauto.
Qed.

Lemma open_inv p s r s' :
  tiledb.open p s = (r, s') ->
  s' = s /\ (r = inr tt -> is_Some (tiledb.arrays s !! p)).
Proof.
  unfold tiledb.open.
  destruct (tiledb.arrays s !! p) as [a|] eqn:Hp; intros [= <- <-]; split; eauto.
  discriminate.
Qed.

Lemma update_inv p f s r s' :
  tiledb.update p f s = (r, s') ->
  r = inr tt /\ tiledb.dirs s' = tiledb.dirs s /\ tiledb.groups s' = tiledb.groups s /\
  tiledb.arrays s' = alter f p (tiledb.arrays s).
Proof. by intros [= <- <-]. Qed.

(** ** Normalization is kept by every method of the writer *)

Lemma store_normalized_empty : store_normalized tiledb.empty.
Proof. intros p a H. simpl in H. by rewrite lookup_empty in H. Qed.

Lemma same_arrays_keeps_normalized s s' :
  tiledb.arrays s' = tiledb.arrays s -> keeps_normalized s s'.
Proof. intros Heq Hs p a. rewrite Heq. apply Hs. Qed.

Lemma update_keeps_normalized p f :
  (forall a, tiledb.schema (f a) = tiledb.schema a) ->
  preserves keeps_normalized (tiledb.update p f).
Proof.
  intros Hf s r s' H Hs q a.
  apply update_inv in H as (_ & _ & _ & ->).
  rewrite lookup_alter. case_decide as Hq; [subst q|apply Hs].
  destruct (tiledb.arrays s !! p) as [a0|] eqn:Ha0; simpl; [|done].
  intros [= <-]. rewrite Hf. by eapply Hs.
Qed.

Lemma Array_create_keeps_normalized p sch :
  Forall dim_normalized (tiledb.schema_domain sch) ->
  preserves keeps_normalized (tiledb.Array_create p sch).
Proof.
  intros Hsch s r s' H Hs q a.
  apply Array_create_inv in H as [(_ & -> & _)|(_ & _ & ->)]; [apply Hs|].
  rewrite lookup_insert. case_decide; [|apply Hs].
  by intros [= <-].
Qed.

Lemma comprehension_Forall {A B} (f : A -> result B) (P : B -> Prop) xs ys :
  (forall x y, f x = inr y -> P y) ->
  comprehension f xs = inr ys -> Forall P ys.
Proof.
  intros Hf. revert ys. induction xs as [|x xs IH]; intros ys H; simpl in H.
  - injection H as <-. constructor.
  - destruct (f x) as [e|y] eqn:Hy; [discriminate|].
    destruct (comprehension f xs) as [e|ys'] eqn:Hys; [discriminate|].
    injection H as <-. constructor; eauto.
Qed.

Lemma comprehension_length {A B} (f : A -> result B) xs ys :
  comprehension f xs = inr ys -> length ys = length xs.
Proof.
  revert ys. induction xs as [|x xs IH]; intros ys H; simpl in H.
  - by injection H as <-.
  - destruct (f x) as [e|y]; [discriminate|].
    destruct (comprehension f xs) as [e|ys'] eqn:Hys; [discriminate|].
    injection H as <-. simpl. f_equal. by apply IH.
Qed.

Lemma create_domain_arrays_keeps_normalized self domain_vars group_dirname :
  preserves keeps_normalized (TDBWriter.create_domain_arrays self domain_vars group_dirname).
Proof.
  apply preserves_for; [apply _..|]. intros var_name _.
  apply preserves_bind; [apply _..|apply preserves_lift, _|]. intros data_var.
  intros s r s' H.
  apply eff_bind_inv in H as [(e & [= _ <-] & _)|(dims & s1 & [= Hdims <-] & H)];
    [reflexivity|].
  eapply Array_create_keeps_normalized; [|exact H]. simpl.
  eapply comprehension_Forall; [|exact Hdims].
  apply create_tdb_dim_normalized.
Qed.

Lemma populate_array_keeps_normalized self var_name data_var group_dirname start write_meta :
  preserves keeps_normalized
    (TDBWriter.populate_array self var_name data_var group_dirname start write_meta).
Proof.
  unfold TDBWriter.populate_array.
  apply preserves_bind; [apply _..| |intros _].
  { intros s r s' H. apply open_inv in H as [-> _]. reflexivity. }
  apply preserves_bind; [apply _..| |intros _].
  { by apply update_keeps_normalized. }
  destruct write_meta; [|apply preserves_ret, _].
  apply preserves_for; [apply _..|]. intros k _.
  by apply update_keeps_normalized.
Qed.

Lemma populate_domain_arrays_keeps_normalized self domain_vars group_dirname :
  preserves keeps_normalized (TDBWriter.populate_domain_arrays self domain_vars group_dirname).
Proof.
  apply preserves_for; [apply _..|]. intros var_name _.
  apply preserves_bind; [apply _..|apply preserves_lift, _|]. intros data_var.
  apply populate_array_keeps_normalized.
Qed.

Lemma create_tdb_directory_arrays self p s r s' :
  TDBWriter._create_tdb_directory self p s = (r, s') -> tiledb.arrays s' = tiledb.arrays s.
Proof.
  unfold TDBWriter._create_tdb_directory, try_except.
  destruct (tiledb.makedirs p s) as [[e|[]] s1] eqn:Hm.
  - apply makedirs_arrays in Hm. case_decide; by intros [= _ <-].
  - apply makedirs_arrays in Hm. by intros [= _ <-].
Qed.

Lemma create_domains_keeps_normalized self :
  preserves keeps_normalized (TDBWriter.create_domains self).
Proof.
  apply preserves_for; [apply _..|]. intros domain _.
  apply preserves_bind; [apply _..|apply preserves_lift, _|]. intros domain_vars.
  apply preserves_bind; [apply _..|apply preserves_lift, _|]. intros domain_name.
  apply preserves_bind; [apply _..| |intros _].
  { intros s r s' H. eapply same_arrays_keeps_normalized, create_tdb_directory_arrays, H. }
  apply preserves_bind; [apply _..| |intros _].
  { intros s r s' H. eapply same_arrays_keeps_normalized, group_create_arrays, H. }
  apply preserves_bind; [apply _..| |intros _].
  { apply create_domain_arrays_keeps_normalized. }
  apply populate_domain_arrays_keeps_normalized.
Qed.

Lemma append_keeps_normalized self other var_name append_dim :
  preserves keeps_normalized (TDBWriter.append self other var_name append_dim).
Proof.
  unfold TDBWriter.append.
  repeat (apply preserves_bind;
          [apply _.. | first [apply preserves_assert, _ | apply preserves_lift, _] | intros ?]).
  apply populate_array_keeps_normalized.
Qed.

(** C7: every dimension [_create_tdb_dim] returns has lower bound 0 and
    dtype int64, whatever the dtype of the source coordinate; and starting
    from a store whose arrays have only such dimensions, [create_domains]
    and [append] leave a store whose arrays have only such dimensions, also
    when they raise part-way. *)
Theorem C7_dims_start_at_zero_int64 self s :
  store_normalized s ->
  (forall dim_name d, TDBWriter._create_tdb_dim self dim_name = inr d ->
     fst (tiledb.dim_domain d) = 0 /\ tiledb.dim_dtype d = np_int64) /\
  (forall r s', TDBWriter.create_domains self s = (r, s') -> store_normalized s') /\
  (forall other var_name append_dim r s',
     TDBWriter.append self other var_name append_dim s = (r, s') -> store_normalized s').
Proof.
  intros Hs. split; [|split].
  - intros dim_name d H. exact (create_tdb_dim_normalized _ _ _ H).
  - intros r s' H. exact (create_domains_keeps_normalized self _ _ _ H Hs).
  - intros other var_name append_dim r s' H.
    exact (append_keeps_normalized self _ _ _ _ _ _ H Hs).
Qed.

Lemma C7_dims_start_at_zero_int64_witness :
  store_normalized tiledb.empty /\
  ((forall dim_name d, TDBWriter._create_tdb_dim example_writer dim_name = inr d ->
      fst (tiledb.dim_domain d) = 0 /\ tiledb.dim_dtype d = np_int64) /\
   (forall r s', TDBWriter.create_domains example_writer tiledb.empty = (r, s') ->
      store_normalized s') /\
   (forall other var_name append_dim r s',
      TDBWriter.append example_writer other var_name append_dim tiledb.empty = (r, s') ->
      store_normalized s')).
Proof.
  split; [exact store_normalized_empty|].
  exact (C7_dims_start_at_zero_int64 example_writer tiledb.empty store_normalized_empty).
Defined.

(** The arrays [create_domains] makes for the example all have dimensions
    that start at 0 with dtype int64, although the source coordinates are
    float32. *)
Lemma example_created_normalized :
  fst (TDBWriter.create_domains example_writer tiledb.empty) = inr tt /\
  (map (fun d => (tiledb.dim_name d, tiledb.dim_domain d, tiledb.dim_dtype d))
     <$> (tiledb.schema_domain <$> (tiledb.schema <$> (tiledb.arrays store_created !! example_path))))
  = Some [("time", (0, INT64_MAX - 10), np_int64);
          ("lat", (0, 3), np_int64);
          ("lon", (0, 4), np_int64)].
Proof. split; by vm_compute. Qed.

(** C9, the claim as stated fails: with [unlimited_dims=None], translating
    the dimension [bnds], which has no coordinate variable, raises
    [KeyError] at the lookup in [_ncds_vars], before the membership test is
    reached; so not every call raises [TypeError]. *)
Lemma C9_counterexample :
  ~ (forall dm dim_name,
       TDBWriter._create_tdb_dim (default_writer dm) dim_name = inl TypeError).
Proof.
  intros H. specialize (H example_model_bnds "bnds").
  vm_compute in H. discriminate.
Qed.

(** C9, amended: with [unlimited_dims=None] no call of [_create_tdb_dim]
    returns a dimension; for a dimension name that has a one-dimensional
    coordinate variable in the data model the call raises [TypeError] (from
    the membership test against [None]), and so does [create_domain_arrays]
    for a variable whose first dimension is that one, before it creates any
    array. *)
Theorem C9_default_unlimited_dims_raises dm filepath array_name dim_name dim_coord N :
  _ncds_vars dm !! dim_name = Some dim_coord ->
  shape dim_coord = [N] ->
  let self := TDBWriter.__init__ dm filepath array_name None in
  TDBWriter._create_tdb_dim self dim_name = inl TypeError /\
  (forall other_dim d, TDBWriter._create_tdb_dim self other_dim <> inr d) /\
  (forall var_name data_var dims domain_vars group_dirname s,
     _ncds_vars dm !! var_name = Some data_var ->
     dimensions data_var = dim_name :: dims ->
     TDBWriter.create_domain_arrays self (var_name :: domain_vars) group_dirname s
     = (inl TypeError, s)).
Proof.
  intros Hv Hs self.
  assert (TDBWriter._create_tdb_dim self dim_name = inl TypeError) as Hraise.
  { by rewrite (create_tdb_dim_eval self _ _ _ Hv Hs). }
  split; [done|]. split.
  - intros other_dim d H.
    apply create_tdb_dim_inv in H as (? & ? & l & _ & _ & Hl). discriminate.
  - intros var_name data_var dims domain_vars group_dirname s Hvar Hdims.
    unfold TDBWriter.create_domain_arrays. simpl for_.
    change (TDBWriter.data_model self) with dm. unfold getitem. rewrite Hvar.
    cbn [bind eff_monad lift]. rewrite Hdims. cbn [comprehension].
    by rewrite Hraise.
Qed.

Lemma C9_default_unlimited_dims_raises_witness :
  let dm := example_model 10 in
  let dim_coord := example_variable "time" ["time"] [10] in
  (_ncds_vars dm !! "time" = Some dim_coord /\ shape dim_coord = [10]) /\
  (let self := TDBWriter.__init__ dm "out" None None in
   TDBWriter._create_tdb_dim self "time" = inl TypeError /\
   (forall other_dim d, TDBWriter._create_tdb_dim self other_dim <> inr d) /\
   (forall var_name data_var dims domain_vars group_dirname s,
      _ncds_vars dm !! var_name = Some data_var ->
      dimensions data_var = "time" :: dims ->
      TDBWriter.create_domain_arrays self (var_name :: domain_vars) group_dirname s
      = (inl TypeError, s))).
Proof.
  intros dm dim_coord.
  assert (_ncds_vars dm !! "time" = Some dim_coord) as H1 by (by vm_compute).
  assert (shape dim_coord = [10]) as H2 by reflexivity.
  split; [by split|].
  exact (C9_default_unlimited_dims_raises dm "out" None "time" dim_coord 10 H1 H2).
Defined.

(** With the default [unlimited_dims=None], [create_domains] on the example
    raises [TypeError] and leaves no array behind. *)
Lemma example_default_create_domains_raises :
  TDBWriter.create_domains (default_writer (example_model 10)) tiledb.empty
  = (inl TypeError,
     {| tiledb.dirs := {["out/forecast/domain_0"]};
        tiledb.groups := {["out/forecast/domain_0"]};
        tiledb.arrays := ∅ |}).
Proof.
  assert (forall a b : result unit * tiledb.store,
            fst a = fst b -> tiledb.dirs (snd a) = tiledb.dirs (snd b) ->
            tiledb.groups (snd a) = tiledb.groups (snd b) ->
            tiledb.arrays (snd a) = tiledb.arrays (snd b) -> a = b) as Hext.
  { intros [r1 [d1 g1 a1]] [r2 [d2 g2 a2]]; simpl; congruence. }
  apply Hext; by vm_compute.
Qed.

(** ** Preconditions of [TDBWriter.append] *)

(** C4: [append] raises [AssertionError] and leaves the store as it found
    it (nothing written; and since this holds also for a store that lacks
    the target array, where [open] would raise, no array opened) when the
    variable name is missing
    from the data variables of the writer's data model or of the new one, or
    when the append dimension is missing from the dimension tuple of either
    variable, or when the two dimension tuples differ. *)
Theorem C4_append_preconditions self other var_name append_dim s :
  (var_name ∉ data_var_names (TDBWriter.data_model self)) \/
  (var_name ∉ data_var_names other) \/
  (exists self_data_var other_data_var,
     _ncds_vars (TDBWriter.data_model self) !! var_name = Some self_data_var /\
     _ncds_vars other !! var_name = Some other_data_var /\
     (dim_in append_dim (dimensions self_data_var) = false \/
      dim_in append_dim (dimensions other_data_var) = false \/
      dimensions self_data_var <> dimensions other_data_var)) ->
  TDBWriter.append self other var_name append_dim s = (inl AssertionError, s).
Proof.
  intros H. unfold TDBWriter.append.
  destruct (decide (var_name ∈ data_var_names (TDBWriter.data_model self))) as [Hin1|Hn1].
  2: { by rewrite (bool_decide_eq_false_2 _ Hn1). }
  rewrite (bool_decide_eq_true_2 _ Hin1).
  destruct (decide (var_name ∈ data_var_names other)) as [Hin2|Hn2].
  2: { by rewrite (bool_decide_eq_false_2 _ Hn2). }
  rewrite (bool_decide_eq_true_2 _ Hin2).
  destruct H as [H|[H|(sv & ov & Hsv & Hov & H)]]; [done..|].
  unfold getitem. rewrite Hsv, Hov. cbn [assert bind eff_monad lift ret].
  destruct (dim_in append_dim (dimensions sv)) eqn:Hd1; [|done].
  destruct (dim_in append_dim (dimensions ov)) eqn:Hd2; [|done].
  destruct H as [[=]|[[=]|Hne]].
  by rewrite (bool_decide_eq_false_2 _ Hne).
Qed.

Lemma C4_append_preconditions_witness :
  let other := example_model_bnds in
  ((("temp" ∉ data_var_names (TDBWriter.data_model example_writer)) \/
    ("temp" ∉ data_var_names other) \/
    (exists self_data_var other_data_var,
       _ncds_vars (TDBWriter.data_model example_writer) !! "temp" = Some self_data_var /\
       _ncds_vars other !! "temp" = Some other_data_var /\
       (dim_in (DimName "time") (dimensions self_data_var) = false \/
        dim_in (DimName "time") (dimensions other_data_var) = false \/
        dimensions self_data_var <> dimensions other_data_var)))) /\
  TDBWriter.append example_writer other "temp" (DimName "time") store_created
  = (inl AssertionError, store_created).
Proof.
  intros other.
  assert ("temp" ∉ data_var_names other) as Hn.
  { apply (bool_decide_unpack _). by vm_compute. }
  split; [by right; left|].
  apply (C4_append_preconditions example_writer other "temp" (DimName "time") store_created).
  by right; left.
Defined.

(** An append dimension given by position fails the same check: an [int] is
    no member of a tuple of names. *)
Lemma append_by_position_raises self other var_name i s :
  var_name ∈ data_var_names (TDBWriter.data_model self) ->
  var_name ∈ data_var_names other ->
  is_Some (_ncds_vars (TDBWriter.data_model self) !! var_name) ->
  is_Some (_ncds_vars other !! var_name) ->
  TDBWriter.append self other var_name (DimIndex i) s = (inl AssertionError, s).
Proof.
  intros H1 H2 [sv Hsv] [ov Hov]. unfold TDBWriter.append.
  rewrite (bool_decide_eq_true_2 _ H1), (bool_decide_eq_true_2 _ H2).
  unfold getitem. by rewrite Hsv, Hov.
Qed.

(** ** Write indices *)

Lemma array_indices_lookup (shp offsets : list Z) i extent offset :
  shp !! i = Some extent -> offsets !! i = Some offset ->
  map (fun '(dim, start_ind) => (start_ind, dim + start_ind)) (zip shp offsets) !! i
  = Some (offset, offset + extent).
Proof.
  revert offsets i. induction shp as [|e shp IH]; intros [|o offsets] [|i]; simpl; try done.
  - intros [= ->] [= ->]. f_equal. f_equal. lia.
  - apply IH.
Qed.

Lemma array_indices_length (shp offsets : list Z) :
  length offsets = length shp ->
  length (map (fun '(dim, start_ind) => (start_ind, dim + start_ind)) (zip shp offsets))
  = length shp.
Proof. intros H. rewrite length_map, length_zip_with. lia. Qed.

(** C5: for a variable of shape [(extent_0, ..., extent_{k-1})] and an
    offset vector with one entry per dimension, [_array_indices] returns [k]
    slices, the one of dimension [i] running from [offset_i] to
    [offset_i + extent_i]; an [int] offset stands for the vector that repeats
    it [k] times. *)
Theorem C5_array_indices self data_var offsets :
  length offsets = length (shape data_var) ->
  (length (TDBWriter._array_indices self data_var (SeqIndex offsets))
   = length (shape data_var) /\
   forall i extent offset,
     shape data_var !! i = Some extent -> offsets !! i = Some offset ->
     TDBWriter._array_indices self data_var (SeqIndex offsets) !! i
     = Some (offset, offset + extent)) /\
  (forall start : Z,
     TDBWriter._array_indices self data_var (IntIndex start)
     = TDBWriter._array_indices self data_var
         (SeqIndex (replicate (length (shape data_var)) start)) /\
     length (TDBWriter._array_indices self data_var (IntIndex start))
     = length (shape data_var) /\
     forall i extent,
       shape data_var !! i = Some extent ->
       TDBWriter._array_indices self data_var (IntIndex start) !! i
       = Some (start, start + extent)).
Proof.
  intros Hlen. unfold TDBWriter._array_indices. split; [split|].
  - by apply array_indices_length.
  - intros i extent offset. apply array_indices_lookup.
  - intros start. split; [done|]. split.
    + apply array_indices_length, length_replicate.
    + intros i extent Hi. apply array_indices_lookup; [done|].
      apply lookup_replicate_2. by eapply lookup_lt_Some.
Qed.

Lemma C5_array_indices_witness :
  let data_var := example_variable "temp" ["time"; "lat"; "lon"] [4; 3; 4] in
  let offsets := [10; 0; 0] in
  length offsets = length (shape data_var) /\
  ((length (TDBWriter._array_indices example_writer data_var (SeqIndex offsets))
    = length (shape data_var) /\
    forall i extent offset,
      shape data_var !! i = Some extent -> offsets !! i = Some offset ->
      TDBWriter._array_indices example_writer data_var (SeqIndex offsets) !! i
      = Some (offset, offset + extent)) /\
   (forall start : Z,
      TDBWriter._array_indices example_writer data_var (IntIndex start)
      = TDBWriter._array_indices example_writer data_var
          (SeqIndex (replicate (length (shape data_var)) start)) /\
      length (TDBWriter._array_indices example_writer data_var (IntIndex start))
      = length (shape data_var) /\
      forall i extent,
        shape data_var !! i = Some extent ->
        TDBWriter._array_indices example_writer data_var (IntIndex start) !! i
        = Some (start, start + extent))).
Proof.
  intros data_var offsets. split; [reflexivity|].
  apply (C5_array_indices example_writer data_var offsets). reflexivity.
Defined.

Lemma example_array_indices :
  TDBWriter._array_indices example_writer
    (example_variable "temp" ["time"; "lat"; "lon"] [4; 3; 4]) (SeqIndex [10; 0; 0])
  = [(10, 14); (0, 3); (0, 4)] /\
  TDBWriter._array_indices example_writer
    (example_variable "temp" ["time"; "lat"; "lon"] [4; 3; 4]) (IntIndex 0)
  = [(0, 4); (0, 3); (0, 4)].
Proof. by split. Qed.

(** An offset vector shorter than the shape gives as many slices as it has
    entries: [zip] stops at the shorter of its arguments. *)
Lemma array_indices_short_offsets self data_var offsets :
  length (TDBWriter._array_indices self data_var (SeqIndex offsets))
  = Nat.min (length (shape data_var)) (length offsets).
Proof. unfold TDBWriter._array_indices. by rewrite length_map, length_zip_with. Qed.

(** ** Construction of a ZarrWriter *)

(** C10: with a [group_name] that is not [None], [__init__] raises
    [AttributeError] when it reads [self.group_name], at which point only
    [data_model], [filepath] and [_group_name] are bound, so that no writer
    is returned; with [group_name=None] it returns a writer whose group name
    is the base name of the NetCDF file without its extension. *)
Theorem C10_zarr_group_name_unbound cwd dm filepath :
  (forall g,
     ZarrWriter.__init__ cwd dm filepath (Some g) ZarrWriter.new
     = (inl AttributeError,
        {| ZarrWriter.data_model := Some dm; ZarrWriter.filepath := Some filepath;
           ZarrWriter._group_name := Some (Some g); ZarrWriter.group_name := None;
           ZarrWriter.array_filename := None; ZarrWriter.group := None;
           ZarrWriter.zarray := None |}) /\
     ZarrWriter.construct cwd dm filepath (Some g) = inl AttributeError) /\
  (let g := os_path.basename (fst (os_path.splitext (netcdf_filename dm))) in
   ZarrWriter.construct cwd dm filepath None
   = inr {| ZarrWriter.data_model := Some dm; ZarrWriter.filepath := Some filepath;
            ZarrWriter._group_name := Some None; ZarrWriter.group_name := Some g;
            ZarrWriter.array_filename := Some (os_path.join cwd [filepath; g] +:+ ".zarr");
            ZarrWriter.group := Some None; ZarrWriter.zarray := Some None |}).
Proof. split; [intros g; split|]; reflexivity. Qed.

Lemma example_zarr_construct :
  ZarrWriter.array_filename
    <$> (match ZarrWriter.construct "/home/user" (example_model 10) "out" None with
         | inr w => Some w | inl _ => None end)
  = Some (Some "/home/user/out/forecast.zarr") /\
  ZarrWriter.construct "/home/user" (example_model 10) "out" (Some "forecast")
  = inl AttributeError.
Proof. split; reflexivity. Qed.

(** ** Appending to a Zarr group *)

Lemma Array_append_appended shp axis a a' :
  zarr.Array_append shp axis a = inr a' ->
  zarr.appended a' = zarr.appended a ++ [(axis, shp)].
Proof.
  unfold zarr.Array_append. case_decide; [|discriminate].
  destruct (zarr.arr_shape a !! axis) as [n|]; simpl.
  - destruct (shp !! axis) as [m|]; simpl; [|discriminate]. by intros [= <-].
  - by intros [= <-].
Qed.

Lemma member_append_inv grp g shp axis s r s' :
  zarr.member_append grp g shp axis s = (r, s') ->
  (s' = s /\ exists e, r = inl e) \/
  (exists path members a a',
     grp = Some path /\ s !! path = Some members /\ members !! g = Some a /\
     zarr.Array_append shp axis a = inr a' /\ r = inr tt /\
     s' = <[path := <[g := a']> members]> s).
Proof.
  unfold zarr.member_append. intros H.
  destruct grp as [path|]; [|injection H as <- <-; eauto].
  destruct (s !! path) as [members|] eqn:Hp; [|injection H as <- <-; eauto].
  destruct (members !! g) as [a|] eqn:Hg; [|injection H as <- <-; eauto].
  destruct (zarr.Array_append shp axis a) as [e|a'] eqn:Ha; injection H as <- <-; [eauto|].
  right. exists path, members, a, a'. by eauto 10.
Qed.

Lemma member_insert (s : zarr.store) path members g a' path' g' :
  s !! path = Some members ->
  zarr.member (<[path := <[g := a']> members]> s) path' g'
  = if decide (path' = path /\ g' = g) then Some a' else zarr.member s path' g'.
Proof.
  intros Hp. unfold zarr.member.
  destruct (decide (path' = path)) as [->|Hne].
  - rewrite lookup_insert_eq, Hp.
    destruct (decide (g' = g)) as [->|Hg].
    + rewrite lookup_insert_eq. by rewrite decide_True.
    + rewrite lookup_insert_ne by done. rewrite decide_False; [done|]. by intros [_ ?].
  - rewrite lookup_insert_ne by done. rewrite decide_False; [done|]. by intros [? _].
Qed.

#[local] Instance only_axis0_appends_refl : Reflexive only_axis0_appends.
Proof.
  intros s path g. split; [done|]. exists []. by rewrite app_nil_r.
Qed.

#[local] Instance only_axis0_appends_trans : Transitive only_axis0_appends.
Proof.
  intros s1 s2 s3 H12 H23 path g.
  destruct (H12 path g) as [K12 (c12 & E12 & F12)].
  destruct (H23 path g) as [K23 (c23 & E23 & F23)].
  split; [auto|]. exists (c12 ++ c23). split.
  - by rewrite E23, E12, app_assoc.
  - by apply Forall_app.
Qed.





Section zarr_append_all.
Variable self : ZarrWriter.t.
Variable other : NCDataModel.
Variable path : string.
Variable g : string.
Variable other_var : Variable_.
Hypothesis Hgroup : ZarrWriter.group self = Some (Some path).
Hypothesis Hvar : _ncds_vars other !! g = Some other_var.

#[local] Instance keeps_last_append_refl call : Reflexive (keeps_last_append path g call).
Proof. by intros s H. Qed.

#[local] Instance keeps_last_append_trans call : Transitive (keeps_last_append path g call).
Proof. intros s1 s2 s3 H12 H23 H. by apply H23, H12. Qed.

Lemma append_member_inv group_name s r s' :
  ZarrWriter.append_member self other group_name s = (r, s') ->
  (s' = s /\ exists e, r = inl e) \/
  (exists members a a' v,
     s !! path = Some members /\ members !! group_name = Some a /\
     _ncds_vars other !! group_name = Some v /\
     zarr.Array_append (shape v) 0 a = inr a' /\ r = inr tt /\
     s' = <[path := <[group_name := a']> members]> s).
Proof.
  unfold ZarrWriter.append_member. rewrite Hgroup. cbn [ZarrWriter.getattr bind eff_monad].
  unfold zarr.getattr_member.
  destruct (zarr.group_getattr (Some path) group_name s) as [e|a0]; [intros [= <- <-]; eauto|].
  unfold getitem, lift.
  destruct (_ncds_vars other !! group_name) as [v|] eqn:Hv; [|intros [= <- <-]; eauto].
  intros H.
  apply member_append_inv in H
    as [[-> ?]|(path' & members & a & a' & [= <-] & Hp & Hg & Ha & -> & ->)]; [by left|].
  right. exists members, a, a', v. by eauto 10.
Qed.




End zarr_append_all.




(** On the example the append returns and [temp] grows from 10 to 14 time
    steps through one call along axis 0; against a data model with other
    data variables it raises. *)
Lemma example_zarr_append :
  fst (ZarrWriter.append example_zarr_writer (example_model 4) None example_zarr_store)
  = inr tt /\
  zarr.member
    (snd (ZarrWriter.append example_zarr_writer (example_model 4) None example_zarr_store))
    "/home/user/out/forecast.zarr" "temp"
  = Some {| zarr.arr_shape := [14; 3; 4]; zarr.appended := [(0%nat, [4; 3; 4])] |} /\
  fst (ZarrWriter.append example_zarr_writer example_model_bnds None example_zarr_store)
  = inl AssertionError.
Proof. repeat split; by vm_compute. Qed.

(** ** The write offset of [TDBWriter.append] *)

Lemma index_elem {A} `{EqDecision A} (l : list A) (x : A) :
  x ∈ l ->
  exists i, index l x = inr i /\ l !! i = Some x /\ forall j, (j < i)%nat -> l !! j <> Some x.
Proof.
  induction l as [|y l IH]; intros Hx.
  - by apply elem_of_nil in Hx.
  - simpl. destruct (decide (y = x)) as [->|Hne].
    + exists 0%nat. split; [done|]. split; [done|]. intros j Hj. lia.
    + apply elem_of_cons in Hx as [->|Hx]; [done|].
      destruct (IH Hx) as (i & -> & Hi & Hfirst).
      exists (S i). split; [done|]. split; [done|].
      intros [|j] Hj; simpl; [congruence|]. apply Hfirst. lia.
Qed.






Lemma example_created_lookup :
  tiledb.arrays store_created !! example_path = Some example_created_array.
Proof. by vm_compute. Qed.


(** The scenario of the example: created with 10 time steps, [temp] is
    appended 4 more at offset [(10, 0, 0)] and then has 14. *)
Lemma example_append_scenario :
  fst (TDBWriter.create_domains example_writer tiledb.empty) = inr tt /\
  fst (TDBWriter.append example_writer (example_model 4) "temp" (DimName "time")
         store_created) = inr tt /\
  (tiledb.written <$> (tiledb.arrays store_appended_once !! example_path))
  = Some [[(0, 10); (0, 3); (0, 4)]; [(10, 14); (0, 3); (0, 4)]] /\
  ((fun a => tiledb.extent a 0) <$> (tiledb.arrays store_appended_once !! example_path))
  = Some 14.
Proof. repeat split; by vm_compute. Qed.

(** ** Where the arrays are created and where [append] writes *)


Lemma update_keeps_arrays p f : preserves keeps_arrays (tiledb.update p f).
Proof.
  intros s r s' H q Hq. apply update_inv in H as (_ & _ & _ & ->).
  rewrite lookup_alter_is_Some. done.
Qed.







#[local] Instance touches_only_refl p : Reflexive (touches_only p).
Proof. by intros s. Qed.

#[local] Instance touches_only_trans p : Transitive (touches_only p).
Proof.
  intros s1 s2 s3 (D12 & G12 & A12) (D23 & G23 & A23). split; [|split].
  - by rewrite D23.
  - by rewrite G23.
  - intros q Hq. by rewrite A23, A12.
Qed.





(** ** The literal form of the array path *)

Lemma append_cons (x : ascii) (a b : string) : String x a +:+ b = String x (a +:+ b).
Proof. reflexivity. Qed.










(** ** The example satisfies the contract of the data model *)






(** On the example both operations use [out/forecast/domain_0/temp]. *)
Lemma example_same_path :
  os_path.join (TDBWriter.tiledb_filepath example_writer)
    [TDBWriter.array_name example_writer; "domain_" +:+ pretty 0%nat; "temp"]
  = example_path /\
  tiledb.arrays tiledb.empty !! example_path = None /\
  is_Some (tiledb.arrays store_created !! example_path) /\
  (tiledb.written <$> (tiledb.arrays store_created !! example_path))
  = Some [[(0, 10); (0, 3); (0, 4)]] /\
  (tiledb.written <$> (tiledb.arrays store_appended_once !! example_path))
  = Some [[(0, 10); (0, 3); (0, 4)]; [(10, 14); (0, 3); (0, 4)]].
Proof.
  split; [by vm_compute|]. split; [done|]. split.
  - rewrite example_created_lookup. by eexists.
  - split; by vm_compute.
Qed.

(* ================================================================== *)
(** * Further properties of the writers *)
(* ================================================================== *)

(** ** Loops *)

Lemma for_app {S A} (xs ys : list A) (body : A -> eff S unit) s :
  for_ (xs ++ ys) body s = (do_ for_ xs body; for_ ys body) s.
Proof.
  revert s. induction xs as [|x xs IH]; intros s; [done|].
  cbn [app for_ bind eff_monad]. destruct (body x s) as [[e|[]] s1]; [done|].
  apply IH.
Qed.

Lemma for_returns_split {S A} (xs ys : list A) (x : A) (body : A -> eff S unit) s s' :
  for_ (xs ++ x :: ys) body s = (inr tt, s') ->
  exists s1 s2,
    for_ xs body s = (inr tt, s1) /\ body x s1 = (inr tt, s2) /\
    for_ ys body s2 = (inr tt, s').
Proof.
  rewrite for_app. intros H.
  apply eff_bind_inv in H as [(e & _ & [=])|([] & s1 & H1 & H)].
  simpl for_ in H.
  apply eff_bind_inv in H as [(e & _ & [=])|([] & s2 & H2 & H)].
  by eauto.
Qed.


(** ** Names of directories and arrays *)

Lemma index_lookup {A} `{EqDecision A} (l : list A) (x : A) (i : nat) :
  index l x = inr i -> l !! i = Some x.
Proof.
  revert i. induction l as [|y l IH]; intros i; simpl; [discriminate|].
  destruct (decide (y = x)) as [->|Hne]; [by intros [= <-]|].
  destruct (index l x) as [e|j]; [discriminate|]. intros [= <-]. by apply IH.
Qed.

Lemma index_not_elem {A} `{EqDecision A} (l : list A) (x : A) :
  x ∉ l -> index l x = inl ValueError.
Proof.
  induction l as [|y l IH]; intros Hx; simpl; [done|].
  apply not_elem_of_cons in Hx as [Hne Hx].
  rewrite decide_False by done. by rewrite IH.
Qed.

(** X1: [_public_domain_name] raises [ValueError] for a domain that is not
    in [domains]; for one that is, it returns [domain_<i>] with [i] the first
    position of the domain in [domains]; and two domains that are given the
    same name are the same domain, so that no two domains share a group
    directory. *)
Theorem X1_public_domain_name self :
  (forall domain, domain ∉ domains (TDBWriter.data_model self) ->
     TDBWriter._public_domain_name self domain = inl ValueError) /\
  (forall domain, domain ∈ domains (TDBWriter.data_model self) ->
     exists i,
       TDBWriter._public_domain_name self domain = inr ("domain_" +:+ pretty i) /\
       domains (TDBWriter.data_model self) !! i = Some domain /\
       forall j, (j < i)%nat -> domains (TDBWriter.data_model self) !! j <> Some domain) /\
  (forall domain1 domain2 domain_name,
     TDBWriter._public_domain_name self domain1 = inr domain_name ->
     TDBWriter._public_domain_name self domain2 = inr domain_name ->
     domain1 = domain2).
Proof.
  unfold TDBWriter._public_domain_name. split; [|split].
  - intros domain Hd. by rewrite (index_not_elem _ _ Hd).
  - intros domain Hd. destruct (index_elem _ _ Hd) as (i & Hi & Hlook & Hfirst).
    exists i. by rewrite Hi.
  - intros domain1 domain2 domain_name H1 H2.
    destruct (index _ domain1) as [e|i] eqn:Hi; [discriminate|].
    destruct (index _ domain2) as [e|j] eqn:Hj; [discriminate|].
    injection H1 as <-. injection H2 as H2.
    change (pretty j = pretty i) in H2. apply (inj pretty) in H2. subst j.
    apply index_lookup in Hi, Hj. congruence.
Qed.


(** X3: an append dimension given as an [int] never gets past the checks of
    [append]: whatever the data models and the store, the call raises
    [AssertionError] or [KeyError] and leaves the store as it was, so the
    branch that would take the [int] as a position is never reached. *)
Theorem X3_append_by_position_never_returns self other var_name i s :
  exists e,
    TDBWriter.append self other var_name (DimIndex i) s = (inl e, s) /\
    (e = AssertionError \/ e = KeyError).
Proof.
  unfold TDBWriter.append.
  destruct (bool_decide (var_name ∈ data_var_names (TDBWriter.data_model self)));
    [|by eauto].
  destruct (bool_decide (var_name ∈ data_var_names other)); [|by eauto].
  unfold getitem.
  destruct (_ncds_vars (TDBWriter.data_model self) !! var_name) as [sv|]; [|by eauto].
  destruct (_ncds_vars other !! var_name) as [ov|]; by eauto.
Qed.

(** ** The default array name *)

Lemma rfind_take_None (c : ascii) (p : string) (n : nat) :
  os_path.rfind c p = None -> os_path.rfind c (os_path.take n p) = None.
Proof.
  revert n. induction p as [|a r IH]; intros [|n]; simpl; try done.
  destruct (os_path.rfind c r) as [j|]; [discriminate|].
  rewrite (IH n eq_refl). by destruct (Ascii.eqb a c).
Qed.

Lemma rfind_take_Some (c : ascii) (p : string) (n i : nat) :
  os_path.rfind c p = Some i -> (S i <= n)%nat ->
  os_path.rfind c (os_path.take n p) = Some i.
Proof.
  revert n i. induction p as [|a r IH]; intros n i; simpl; [discriminate|].
  destruct n as [|n]; [lia|]. simpl.
  destruct (os_path.rfind c r) as [j|] eqn:Hr.
  - intros [= <-] Hle. rewrite (IH n j eq_refl); [done|lia].
  - rewrite (rfind_take_None _ _ n Hr). by destruct (Ascii.eqb a c).
Qed.

Lemma rfind_drop (c : ascii) (p : string) (i : nat) :
  os_path.rfind c p = Some i -> os_path.rfind c (os_path.drop (S i) p) = None.
Proof.
  revert i. induction p as [|a r IH]; intros i; simpl; [discriminate|].
  destruct (os_path.rfind c r) as [j|] eqn:Hr.
  - intros [= <-]. by apply IH.
  - destruct (Ascii.eqb a c); [|discriminate]. intros [= <-]. by destruct r.
Qed.

Lemma take_drop (p : string) (n : nat) : os_path.take n p +:+ os_path.drop n p = p.
Proof.
  revert n. induction p as [|a r IH]; intros [|n]; try done.
  cbn [os_path.take os_path.drop]. rewrite append_cons. by rewrite IH.
Qed.

Lemma drop_take_drop (p : string) (k n : nat) :
  (k <= n)%nat ->
  os_path.drop k (os_path.take n p) +:+ os_path.drop n p = os_path.drop k p.
Proof.
  revert k n. induction p as [|a r IH]; intros k n Hle.
  - by destruct k, n.
  - destruct k as [|k].
    + change (os_path.drop 0 (os_path.take n (String a r))) with (os_path.take n (String a r)).
      apply take_drop.
    + destruct n as [|n]; [lia|]. cbn [os_path.take os_path.drop]. apply IH. lia.
Qed.

Lemma basename_no_sep (p : string) :
  os_path.rfind os_path.sep (os_path.basename p) = None.
Proof.
  unfold os_path.basename.
  destruct (os_path.rfind os_path.sep p) as [i|] eqn:Hp; [|done].
  by apply rfind_drop.
Qed.

Lemma append_empty_r (p : string) : p +:+ "" = p.
Proof. induction p as [|a r IH]; [done|]. rewrite append_cons. by rewrite IH. Qed.

Lemma basename_splitext (p : string) :
  os_path.basename (fst (os_path.splitext p)) +:+ snd (os_path.splitext p)
  = os_path.basename p.
Proof.
  unfold os_path.splitext.
  destruct (os_path.rfind "."%char p) as [dot|] eqn:Hdot; [|apply append_empty_r].
  destruct (_ && _)%bool eqn:Hcond; [|apply append_empty_r].
  apply andb_prop in Hcond as [Hle _]. apply Nat.leb_le in Hle.
  cbn [fst snd]. unfold os_path.basename.
  destruct (os_path.rfind os_path.sep p) as [i|] eqn:Hsep.
  - rewrite (rfind_take_Some _ _ dot i Hsep Hle). by apply drop_take_drop.
  - rewrite (rfind_take_None _ _ dot Hsep). apply take_drop.
Qed.

(** X4: a [tiledb_array_name] passed to the constructor is the array name;
    without one, the array name is the base name of the NetCDF file without
    its extension: it holds no path separator, and followed by the extension
    that was split off it is the base name of the file. *)
Theorem X4_default_array_name data_model tiledb_filepath unlimited_dims :
  (forall tiledb_array_name,
     TDBWriter.array_name
       (TDBWriter.__init__ data_model tiledb_filepath (Some tiledb_array_name) unlimited_dims)
     = tiledb_array_name) /\
  (let array_name :=
     TDBWriter.array_name
       (TDBWriter.__init__ data_model tiledb_filepath None unlimited_dims) in
   os_path.rfind os_path.sep array_name = None /\
   array_name +:+ snd (os_path.splitext (netcdf_filename data_model))
   = os_path.basename (netcdf_filename data_model)).
Proof.
  split; [done|]. cbn [TDBWriter.__init__ TDBWriter.array_name]. split.
  - apply basename_no_sep.
  - apply basename_splitext.
Qed.

(** ** Attributes of the arrays *)

(** X5: [_create_tdb_attrs] returns one attribute per name, in the order of
    the names, each with the name it was made for and the dtype of the
    variable of that name; it returns exactly when every name is a variable
    of the data model, and raises [KeyError] otherwise. *)
Theorem X5_create_tdb_attrs self data_vars :
  (forall tdb_attrs, TDBWriter._create_tdb_attrs self data_vars = inr tdb_attrs ->
     map tiledb.attr_name tdb_attrs = data_vars /\
     Forall2 (fun phenom_name phenom =>
                exists data_var,
                  _ncds_vars (TDBWriter.data_model self) !! phenom_name = Some data_var /\
                  tiledb.attr_dtype phenom = dtype data_var)
             data_vars tdb_attrs) /\
  (Forall (fun phenom_name =>
             is_Some (_ncds_vars (TDBWriter.data_model self) !! phenom_name)) data_vars ->
   exists tdb_attrs, TDBWriter._create_tdb_attrs self data_vars = inr tdb_attrs) /\
  (~ Forall (fun phenom_name =>
               is_Some (_ncds_vars (TDBWriter.data_model self) !! phenom_name)) data_vars ->
   TDBWriter._create_tdb_attrs self data_vars = inl KeyError).
Proof.
  unfold TDBWriter._create_tdb_attrs, getitem.
  induction data_vars as [|n ns (IH1 & IH2 & IH3)]; cbn [comprehension].
  { split; [|split].
    - intros ? [= <-]. by split.
    - by eauto.
    - intros H. by destruct H. }
  destruct (_ncds_vars (TDBWriter.data_model self) !! n) as [v|] eqn:Hv;
    cbn [bind result_monad ret].
  2: { split; [|split].
       - intros ? [=].
       - intros Hall. apply Forall_cons in Hall as [[? Hx] _]. congruence.
       - done. }
  destruct (comprehension _ ns) as [e|attrs].
  - split; [|split].
    + intros ? [=].
    + intros Hall. apply Forall_cons in Hall as [_ Hall].
      destruct (IH2 Hall) as [? [=]].
    + intros Hnot. apply IH3. intros Hall. apply Hnot.
      constructor; [by eauto|done].
  - destruct (IH1 attrs eq_refl) as [Hnames Hdtypes].
    split; [|split].
    + intros ? [= <-]. cbn [map tiledb.attr_name]. split; [by rewrite Hnames|].
      constructor; [by eauto|done].
    + by eauto.
    + intros Hnot. exfalso.
      assert (inr attrs = (inl KeyError : result (list tiledb.Attr))) as Habs; [|discriminate].
      apply IH3. intros Hall. apply Hnot. constructor; [by eauto|done].
Qed.

(** ** Translating a dimension: when it works *)



(** ** What [create_domain_arrays] creates *)

#[local] Instance existing_unchanged_refl : Reflexive existing_unchanged.
Proof. by intros s p a H. Qed.

#[local] Instance existing_unchanged_trans : Transitive existing_unchanged.
Proof. intros s1 s2 s3 H12 H23 p a H. by apply H23, H12. Qed.



Lemma run_returns {S A} (c : eff S A) (s : S) (a : A) :
  fst (c s) = inr a -> c s = (inr a, snd (c s)).
Proof. destruct (c s) as [r s']. simpl. by intros ->. Qed.




(** ** What [populate_array] writes *)






(** ** What [create_domains] leaves in the store *)

#[local] Instance same_at_refl p : Reflexive (same_at p).
Proof. by intros s. Qed.

#[local] Instance same_at_trans p : Transitive (same_at p).
Proof. intros s1 s2 s3 H12 H23. unfold same_at in *. by rewrite H23. Qed.












(** ** Nothing is rolled back *)

#[local] Instance nothing_removed_refl : Reflexive nothing_removed.
Proof. intros s. by repeat split. Qed.

#[local] Instance nothing_removed_trans : Transitive nothing_removed.
Proof.
  intros s1 s2 s3 (D12 & G12 & A12) (D23 & G23 & A23).
  split; [set_solver|]. split; [set_solver|]. by etransitivity.
Qed.

Lemma makedirs_nothing_removed p : preserves nothing_removed (tiledb.makedirs p).
Proof.
  intros s r s'. unfold tiledb.makedirs. case_decide; intros [= _ <-]; [reflexivity|].
  split; [cbn; set_solver|]. split; [done|]. by intros q Hq.
Qed.

Lemma group_create_nothing_removed p : preserves nothing_removed (tiledb.group_create p).
Proof.
  intros s r s'. unfold tiledb.group_create. case_decide; intros [= _ <-]; [reflexivity|].
  split; [done|]. split; [cbn; set_solver|]. by intros q Hq.
Qed.

Lemma Array_create_nothing_removed p sch :
  preserves nothing_removed (tiledb.Array_create p sch).
Proof.
  intros s r s' H. unfold tiledb.Array_create in H.
  destruct (tiledb.arrays s !! p) as [a|] eqn:Hp; injection H as <- <-; [reflexivity|].
  split; [done|]. split; [done|]. intros q Hq. cbn [tiledb.arrays].
  rewrite lookup_insert_is_Some. destruct (decide (p = q)); auto.
Qed.

Lemma update_nothing_removed p f : preserves nothing_removed (tiledb.update p f).
Proof.
  intros s r s' H. pose proof (update_keeps_arrays p f s r s' H) as Hk.
  apply update_inv in H as (_ & HD & HG & _).
  split; [by rewrite HD|]. split; [by rewrite HG|done].
Qed.

Lemma populate_array_nothing_removed self var_name data_var group_dirname start write_meta :
  preserves nothing_removed
    (TDBWriter.populate_array self var_name data_var group_dirname start write_meta).
Proof.
  unfold TDBWriter.populate_array.
  apply preserves_bind; [apply _..| |intros _].
  { intros s r s' H. apply open_inv in H as [-> _]. reflexivity. }
  apply preserves_bind; [apply _..| |intros _].
  { apply update_nothing_removed. }
  destruct write_meta; [|apply preserves_ret, _].
  apply preserves_for; [apply _..|]. intros k _.
  apply update_nothing_removed.
Qed.

Lemma create_domains_nothing_removed self :
  preserves nothing_removed (TDBWriter.create_domains self).
Proof.
  apply preserves_for; [apply _..|]. intros domain _.
  apply preserves_bind; [apply _..|apply preserves_lift, _|]. intros domain_vars.
  apply preserves_bind; [apply _..|apply preserves_lift, _|]. intros domain_name.
  apply preserves_bind; [apply _..| |intros _].
  { apply preserves_try_except; [apply _..|apply makedirs_nothing_removed|].
    apply preserves_ret, _. }
  apply preserves_bind; [apply _..|apply group_create_nothing_removed|intros _].
  apply preserves_bind; [apply _..| |intros _].
  { apply preserves_for; [apply _..|]. intros var_name _.
    apply preserves_bind; [apply _..|apply preserves_lift, _|]. intros data_var.
    apply preserves_bind; [apply _..|apply preserves_lift, _|]. intros array_dims.
    apply Array_create_nothing_removed. }
  apply preserves_for; [apply _..|]. intros var_name _.
  apply preserves_bind; [apply _..|apply preserves_lift, _|]. intros data_var.
  apply populate_array_nothing_removed.
Qed.

(** X11: [create_domains] removes nothing, whether it returns or raises:
    every directory, group and array that was in the store is in the store
    it leaves, so that what a run has made before it raises stays behind. *)
Theorem X11_create_domains_no_rollback self s :
  let s' := snd (TDBWriter.create_domains self s) in
  tiledb.dirs s ⊆ tiledb.dirs s' /\
  tiledb.groups s ⊆ tiledb.groups s' /\
  (forall p, is_Some (tiledb.arrays s !! p) -> is_Some (tiledb.arrays s' !! p)).
Proof.
  intros s'.
  destruct (TDBWriter.create_domains self s) as [r s1] eqn:Hrun. subst s'. cbn [snd].
  exact (create_domains_nothing_removed self s r s1 Hrun).
Qed.

(** ** What [append] leaves alone *)

#[local] Instance only_written_refl : Reflexive only_written.
Proof.
  intros s. split; [done|]. split; [done|]. intros p.
  destruct (tiledb.arrays s !! p) as [a|]; [|done].
  split; [done|]. split; [done|]. exists []. by rewrite app_nil_r.
Qed.

#[local] Instance only_written_trans : Transitive only_written.
Proof.
  intros s1 s2 s3 (D12 & G12 & A12) (D23 & G23 & A23).
  split; [by rewrite D23|]. split; [by rewrite G23|]. intros p.
  specialize (A12 p). specialize (A23 p).
  destruct (tiledb.arrays s1 !! p) as [a1|], (tiledb.arrays s2 !! p) as [a2|],
    (tiledb.arrays s3 !! p) as [a3|]; try done.
  destruct A12 as (S12 & M12 & (w12 & W12)), A23 as (S23 & M23 & (w23 & W23)).
  split; [by rewrite S23|]. split; [by rewrite M23|].
  exists (w12 ++ w23). by rewrite W23, W12, app_assoc.
Qed.

Lemma setitem_only_written p idx : preserves only_written (tiledb.setitem p idx).
Proof.
  intros s r s' H. apply update_inv in H as (_ & HD & HG & HA).
  split; [done|]. split; [done|]. intros q. rewrite HA, lookup_alter.
  case_decide as Hq.
  - subst q. destruct (tiledb.arrays s !! p) as [a|]; [|done]. cbn.
    split; [done|]. split; [done|]. by exists [idx].
  - destruct (tiledb.arrays s !! q) as [a|]; [|done].
    split; [done|]. split; [done|]. exists []. by rewrite app_nil_r.
Qed.

Lemma append_only_written self other var_name append_dim :
  preserves only_written (TDBWriter.append self other var_name append_dim).
Proof.
  unfold TDBWriter.append.
  repeat (apply preserves_bind;
          [apply _.. | first [apply preserves_assert, _ | apply preserves_lift, _] | intros ?]).
  unfold TDBWriter.populate_array.
  apply preserves_bind; [apply _..| |intros _].
  { intros s r s' H. apply open_inv in H as [-> _]. reflexivity. }
  apply preserves_bind; [apply _..|apply setitem_only_written|intros _].
  apply preserves_ret, _.
Qed.

(** X12: [append] only ever adds writes: whether it returns or raises, the
    store it leaves has the same directories, groups and array paths, and
    every array has the schema and the metadata it had (the attributes are
    not copied again) and its earlier writes, followed by what was
    appended. *)
Theorem X12_append_only_adds_writes self other var_name append_dim s :
  let s' := snd (TDBWriter.append self other var_name append_dim s) in
  tiledb.dirs s' = tiledb.dirs s /\
  tiledb.groups s' = tiledb.groups s /\
  (forall p, is_Some (tiledb.arrays s' !! p) <-> is_Some (tiledb.arrays s !! p)) /\
  (forall p a a',
     tiledb.arrays s !! p = Some a -> tiledb.arrays s' !! p = Some a' ->
     tiledb.schema a' = tiledb.schema a /\ tiledb.meta a' = tiledb.meta a /\
     exists more, tiledb.written a' = tiledb.written a ++ more).
Proof.
  intros s'.
  destruct (TDBWriter.append self other var_name append_dim s) as [r s1] eqn:Hrun.
  subst s'. cbn [snd].
  destruct (append_only_written _ _ _ _ _ _ _ Hrun) as (HD & HG & HA).
  split; [done|]. split; [done|]. split.
  - intros p. specialize (HA p).
    destruct (tiledb.arrays s !! p) as [a|], (tiledb.arrays s1 !! p) as [a'|];
      try done; split; intros [? ?]; done || by eexists.
  - intros p a a' Ha Ha'. specialize (HA p). by rewrite Ha, Ha' in HA.
Qed.

(** ** Appending more than once *)




(** ** Appending to one member of a Zarr group *)

Lemma append_member_cases self other group_name s r s' :
  ZarrWriter.append_member self other group_name s = (r, s') ->
  (s' = s /\ exists e, r = inl e) \/
  (exists path members a a' v,
     ZarrWriter.group self = Some (Some path) /\
     s !! path = Some members /\ members !! group_name = Some a /\
     _ncds_vars other !! group_name = Some v /\
     zarr.Array_append (shape v) 0 a = inr a' /\ r = inr tt /\
     s' = <[path := <[group_name := a']> members]> s).
Proof.
  intros H.
  destruct (ZarrWriter.group self) as [[path|]|] eqn:Hgroup.
  - destruct (append_member_inv _ _ _ Hgroup _ _ _ _ H)
      as [?|(members & a & a' & v & ?)]; [by left|].
    right. exists path, members, a, a', v. by intuition.
  - left. unfold ZarrWriter.append_member in H. rewrite Hgroup in H.
    injection H as <- <-. by eauto.
  - left. unfold ZarrWriter.append_member in H. rewrite Hgroup in H.
    injection H as <- <-. by eauto.
Qed.

(** X14: [ZarrWriter.append] with a [group_name] raises [AssertionError]
    and leaves the store alone when that name is no data variable of the
    writer's data model; whatever the outcome, no other member of any group
    changes; and when it returns, the member of that name in the writer's
    group has recorded exactly one more call of its [append], along axis 0
    with the payload of the variable of that name in the new data model. *)
Theorem X14_zarr_append_one_member self dm other g s :
  ZarrWriter.data_model self = Some dm ->
  (g ∉ data_var_names dm ->
   ZarrWriter.append self other (Some g) s = (inl AssertionError, s)) /\
  (forall r s', ZarrWriter.append self other (Some g) s = (r, s') ->
     forall path g', g' <> g -> zarr.member s' path g' = zarr.member s path g') /\
  (forall s', ZarrWriter.append self other (Some g) s = (inr tt, s') ->
     exists path a a' other_var,
       ZarrWriter.group self = Some (Some path) /\
       _ncds_vars other !! g = Some other_var /\
       zarr.member s path g = Some a /\
       zarr.member s' path g = Some a' /\
       zarr.appended a' = zarr.appended a ++ [(0%nat, shape other_var)]).
Proof.
  intros Hdm.
  assert (forall r s', ZarrWriter.append self other (Some g) s = (r, s') ->
            (s' = s /\ exists e, r = inl e) \/
            ZarrWriter.append_member self other g s = (inr tt, s') /\ r = inr tt) as Hcases.
  { intros r s'. unfold ZarrWriter.append. rewrite Hdm.
    cbn [ZarrWriter.getattr bind eff_monad].
    destruct (bool_decide (g ∈ data_var_names dm)); cbn [assert ret raise eff_monad];
      [|intros [= <- <-]; by eauto].
    cbn [for_ bind eff_monad].
    destruct (ZarrWriter.append_member self other g s) as [[e|[]] s1] eqn:Hm.
    - intros [= <- <-]. left.
      apply append_member_cases in Hm as [[-> _]|(? & ? & ? & ? & ? & _ & _ & _ & _ & _ & [=] & _)].
      by eauto.
    - intros [= <- <-]. by right. }
  split; [|split].
  - intros Hnot. unfold ZarrWriter.append. rewrite Hdm.
    cbn [ZarrWriter.getattr bind eff_monad].
    by rewrite (bool_decide_eq_false_2 _ Hnot).
  - intros r s' Hrun path g' Hne.
    destruct (Hcases r s' Hrun) as [[-> _]|[Hm _]]; [done|].
    apply append_member_cases in Hm
      as [[-> _]|(path0 & members & a & a' & v & _ & Hp & _ & _ & _ & _ & ->)]; [done|].
    rewrite (member_insert _ _ _ _ _ _ _ Hp). rewrite decide_False; [done|].
    by intros [_ ?].
  - intros s' Hrun.
    destruct (Hcases _ s' Hrun) as [[_ [e [=]]]|[Hm _]].
    apply append_member_cases in Hm
      as [[_ [e [=]]]|(path & members & a & a' & v & Hgroup & Hp & Hg & Hv & Ha & _ & ->)].
    exists path, a, a', v. split; [done|]. split; [done|]. split.
    { unfold zarr.member. by rewrite Hp. }
    split.
    { rewrite (member_insert _ _ _ _ _ _ _ Hp). by rewrite decide_True. }
    by apply Array_append_appended.
Qed.

Lemma X14_zarr_append_one_member_witness :
  let self := example_zarr_writer in
  let dm := example_model 10 in
  let other := example_model 4 in
  let s := example_zarr_store in
  ZarrWriter.data_model self = Some dm /\
  ((("temp" ∉ data_var_names dm) ->
    ZarrWriter.append self other (Some "temp") s = (inl AssertionError, s)) /\
   (forall r s', ZarrWriter.append self other (Some "temp") s = (r, s') ->
      forall path g', g' <> "temp" -> zarr.member s' path g' = zarr.member s path g') /\
   (forall s', ZarrWriter.append self other (Some "temp") s = (inr tt, s') ->
      exists path a a' other_var,
        ZarrWriter.group self = Some (Some path) /\
        _ncds_vars other !! "temp" = Some other_var /\
        zarr.member s path "temp" = Some a /\
        zarr.member s' path "temp" = Some a' /\
        zarr.appended a' = zarr.appended a ++ [(0%nat, shape other_var)])).
Proof.
  intros self dm other s. split; [reflexivity|].
  apply (X14_zarr_append_one_member self dm other "temp" s). reflexivity.
Defined.

(** X15: a writer as the constructor returns it has no group yet
    ([self.group] is [None] until [create_zarr] runs): [append] for data
    models that name the same data variables, at least one, raises
    [AttributeError] at the first member and leaves the store alone. *)
Theorem X15_zarr_append_needs_group cwd dm filepath other self s :
  ZarrWriter.construct cwd dm filepath None = inr self ->
  data_var_names dm = data_var_names other ->
  data_var_names other <> [] ->
  ZarrWriter.group self = Some None /\
  ZarrWriter.append self other None s = (inl AttributeError, s).
Proof.
  intros Hself Hnames Hne.
  assert (ZarrWriter.data_model self = Some dm /\ ZarrWriter.group self = Some None)
    as [Hdm Hgroup].
  { cbv [ZarrWriter.construct] in Hself.
    destruct (ZarrWriter.__init__ cwd dm filepath None ZarrWriter.new) as [[e|[]] w] eqn:Hi;
      [discriminate|].
    injection Hself as <-. injection Hi as <-. by split. }
  split; [done|].
  unfold ZarrWriter.append. rewrite Hdm. cbn [ZarrWriter.getattr bind eff_monad].
  rewrite (bool_decide_eq_true_2 _ Hnames). cbn [assert ret eff_monad].
  destruct (data_var_names other) as [|x xs]; [done|].
  cbn [for_ bind eff_monad]. unfold ZarrWriter.append_member. rewrite Hgroup.
  reflexivity.
Qed.

Lemma X15_zarr_append_needs_group_witness :
  let dm := example_model 10 in
  let other := example_model 4 in
  let self :=
    {| ZarrWriter.data_model := Some dm; ZarrWriter.filepath := Some "out";
       ZarrWriter._group_name := Some None; ZarrWriter.group_name := Some "forecast";
       ZarrWriter.array_filename := Some "/home/user/out/forecast.zarr";
       ZarrWriter.group := Some None; ZarrWriter.zarray := Some None |} in
  (ZarrWriter.construct "/home/user" dm "out" None = inr self /\
   data_var_names dm = data_var_names other /\
   data_var_names other <> []) /\
  ZarrWriter.group self = Some None /\
  ZarrWriter.append self other None example_zarr_store
  = (inl AttributeError, example_zarr_store).
Proof.
  intros dm other self.
  assert (ZarrWriter.construct "/home/user" dm "out" None = inr self) as H1
    by reflexivity.
  assert (data_var_names dm = data_var_names other) as H2 by reflexivity.
  assert (data_var_names other <> []) as H3 by discriminate.
  split; [by auto|].
  exact (X15_zarr_append_needs_group "/home/user" dm "out" other self example_zarr_store
           H1 H2 H3).
Defined.

(** ** Creating and then appending *)




(** ** Creating the datasets of a Zarr group *)

Lemma member_members_of (s : zarr.store) path g :
  zarr.member s path g = zarr.members_of s path !! g.
Proof.
  unfold zarr.member, zarr.members_of. destruct (s !! path); [done|].
  simpl. by rewrite lookup_empty.
Qed.

Lemma members_of_insert {A} (m : gmap string (gmap string A)) path x :
  zarr.members_of (<[path := x]> m) path = x.
Proof. unfold zarr.members_of. by rewrite lookup_insert_eq. Qed.

Lemma members_of_insert_ne {A} (m : gmap string (gmap string A)) path path' x :
  path <> path' -> zarr.members_of (<[path := x]> m) path' = zarr.members_of m path'.
Proof. intros Hne. unfold zarr.members_of. by rewrite lookup_insert_ne. Qed.

Lemma update_dataset_inserted path name f (A : zarr.store)
    (ds : gmap string (gmap string zarr.Dataset)) (M : gmap string zarr.Dataset) D :
  zarr.update_dataset path name f
    {| zarr.arrays := A; zarr.datasets := <[path := <[name := D]> M]> ds |}
  = (inr tt, {| zarr.arrays := A; zarr.datasets := <[path := <[name := f D]> M]> ds |}).
Proof.
  unfold zarr.update_dataset. cbn [zarr.arrays zarr.datasets].
  rewrite members_of_insert, insert_insert_eq. do 3 f_equal.
  apply map_eq. intros k. rewrite lookup_alter, !lookup_insert.
  rewrite (decide_True (P := name = name)) by done.
  by destruct (decide (name = k)).
Qed.

Lemma for_attrs_setitem path name (v : Variable_) (ks : list string) w (A : zarr.store)
    (ds : gmap string (gmap string zarr.Dataset)) (M : gmap string zarr.Dataset) c t m a :
  for_ ks (fun ncattr =>
      ZarrWriter.on_files (zarr.attrs_setitem path name ncattr
                             (zarr.AttrValue (getncattr v ncattr))))
    {| ZarrWriter.self_ := w;
       ZarrWriter.files_ :=
         {| zarr.arrays := A;
            zarr.datasets :=
              <[path := <[name := {| zarr.ds_chunks := c; zarr.ds_dtype := t;
                                     zarr.ds_attrs := m; zarr.ds_assigned := a |}]> M]> ds |} |}
  = (inr tt,
     {| ZarrWriter.self_ := w;
        ZarrWriter.files_ :=
          {| zarr.arrays := A;
             zarr.datasets :=
               <[path := <[name := {| zarr.ds_chunks := c; zarr.ds_dtype := t;
                                      zarr.ds_attrs :=
                                        foldl (fun m k => <[k := zarr.AttrValue (getncattr v k)]> m)
                                              m ks;
                                      zarr.ds_assigned := a |}]> M]> ds |} |}).
Proof.
  revert m. induction ks as [|k ks IH]; intros m; [done|].
  cbn [for_ foldl bind eff_monad]. unfold ZarrWriter.on_files at 1.
  cbn [ZarrWriter.files_ ZarrWriter.self_]. unfold zarr.attrs_setitem.
  rewrite update_dataset_inserted. cbn [zarr.ds_chunks zarr.ds_dtype zarr.ds_attrs
    zarr.ds_assigned]. apply IH.
Qed.

Lemma on_self_read {A} (attr : ZarrWriter.t -> option A) st v :
  attr (ZarrWriter.self_ st) = Some v ->
  ZarrWriter.on_self (ZarrWriter.read attr) st = (inr v, st).
Proof.
  intros H. unfold ZarrWriter.on_self, ZarrWriter.read, ZarrWriter.getattr.
  rewrite H. by destruct st.
Qed.

Lemma on_files_ok {A} (c : eff zarr.files A) st a files' :
  c (ZarrWriter.files_ st) = (inr a, files') ->
  ZarrWriter.on_files c st
  = (inr a, {| ZarrWriter.self_ := ZarrWriter.self_ st; ZarrWriter.files_ := files' |}).
Proof. intros H. unfold ZarrWriter.on_files. by rewrite H. Qed.

Lemma lift_getitem_ok {S K} `{Countable K} {V} (m : gmap K V) (k : K) (v : V) (s : S) :
  m !! k = Some v -> lift (getitem m k) s = (inr v, s).
Proof. intros Hk. unfold lift, getitem. by rewrite Hk. Qed.

Lemma eff_bind_assoc {S A B C} (c : eff S A) (k : A -> eff S B) (k' : B -> eff S C) s :
  bind (bind c k) k' s = bind c (fun x => bind (k x) k') s.
Proof. cbn [bind eff_monad]. by destruct (c s) as [[e|x] s1]. Qed.

(** One turn of the loop of [create_variable_datasets], on a writer with a
    group and for a name that is free in it. *)
Lemma create_variable_dataset_eval var_name st dm v path :
  ZarrWriter.data_model (ZarrWriter.self_ st) = Some dm ->
  _ncds_vars dm !! var_name = Some v ->
  ZarrWriter.group (ZarrWriter.self_ st) = Some (Some path) ->
  zarr.member (zarr.arrays (ZarrWriter.files_ st)) path var_name = None ->
  ZarrWriter.create_variable_datasets [var_name] st
  = (inr tt,
     {| ZarrWriter.self_ := ZarrWriter.self_ st;
        ZarrWriter.files_ :=
          {| zarr.arrays :=
               <[path := <[var_name := written_member v]>
                           (zarr.members_of (zarr.arrays (ZarrWriter.files_ st)) path)]>
                 (zarr.arrays (ZarrWriter.files_ st));
             zarr.datasets :=
               <[path := <[var_name := written_dataset dm var_name v]>
                           (zarr.members_of (zarr.datasets (ZarrWriter.files_ st)) path)]>
                 (zarr.datasets (ZarrWriter.files_ st)) |} |}).
Proof.
  intros Hdm Hv Hgroup Hfree. rewrite member_members_of in Hfree.
  unfold ZarrWriter.create_variable_datasets. cbn [for_].
  rewrite eff_bind_assoc.
  rewrite (eff_bind_ok _ _ _ _ _ (on_self_read ZarrWriter.data_model st dm Hdm)).
  cbv beta. rewrite eff_bind_assoc.
  rewrite (eff_bind_ok _ _ _ _ _ (lift_getitem_ok _ _ _ st Hv)).
  cbv beta. rewrite eff_bind_assoc.
  rewrite (eff_bind_ok _ _ _ _ _ (on_self_read ZarrWriter.data_model st dm Hdm)).
  cbv beta zeta. rewrite eff_bind_assoc.
  rewrite (eff_bind_ok _ _ _ _ _ (on_self_read ZarrWriter.group st (Some path) Hgroup)).
  cbv beta. rewrite eff_bind_assoc.
  erewrite (eff_bind_ok _ _ st); cycle 1.
  { apply on_files_ok. unfold zarr.create_dataset. rewrite Hfree. reflexivity. }
  cbv beta. cbn [fst snd]. rewrite eff_bind_assoc.
  erewrite eff_bind_ok; cycle 1.
  { apply on_files_ok. cbn [ZarrWriter.files_]. unfold zarr.assign_all.
    apply update_dataset_inserted. }
  cbv beta.
  cbn [zarr.ds_chunks zarr.ds_dtype zarr.ds_attrs zarr.ds_assigned app ZarrWriter.self_].
  rewrite eff_bind_assoc.
  erewrite eff_bind_ok; cycle 1.
  { apply for_attrs_setitem. }
  cbv beta.
  erewrite eff_bind_ok; cycle 1.
  { apply on_files_ok. cbn [ZarrWriter.files_]. unfold zarr.attrs_setitem.
    apply update_dataset_inserted. }
  reflexivity.
Qed.

Lemma on_self_read_unbound {A} (attr : ZarrWriter.t -> option A) st :
  attr (ZarrWriter.self_ st) = None ->
  ZarrWriter.on_self (ZarrWriter.read attr) st = (inl AttributeError, st).
Proof.
  intros H. unfold ZarrWriter.on_self, ZarrWriter.read, ZarrWriter.getattr.
  rewrite H. by destruct st.
Qed.

Lemma on_files_raise {A} (c : eff zarr.files A) st e files' :
  c (ZarrWriter.files_ st) = (inl e, files') ->
  ZarrWriter.on_files c st
  = (inl e, {| ZarrWriter.self_ := ZarrWriter.self_ st; ZarrWriter.files_ := files' |}).
Proof. intros H. unfold ZarrWriter.on_files. by rewrite H. Qed.

Lemma create_variable_dataset_inv var_name st st' :
  ZarrWriter.create_variable_datasets [var_name] st = (inr tt, st') ->
  exists dm v path,
    ZarrWriter.data_model (ZarrWriter.self_ st) = Some dm /\
    _ncds_vars dm !! var_name = Some v /\
    ZarrWriter.group (ZarrWriter.self_ st) = Some (Some path) /\
    zarr.member (zarr.arrays (ZarrWriter.files_ st)) path var_name = None.
Proof.
  unfold ZarrWriter.create_variable_datasets. cbn [for_]. rewrite eff_bind_assoc.
  destruct (ZarrWriter.data_model (ZarrWriter.self_ st)) as [dm|] eqn:Hdm.
  2: { by rewrite (eff_bind_raise _ _ _ _ _ (on_self_read_unbound _ st Hdm)). }
  rewrite (eff_bind_ok _ _ _ _ _ (on_self_read ZarrWriter.data_model st dm Hdm)).
  cbv beta. rewrite eff_bind_assoc.
  destruct (_ncds_vars dm !! var_name) as [v|] eqn:Hv.
  2: { unfold lift, getitem. rewrite Hv. by cbn. }
  rewrite (eff_bind_ok _ _ _ _ _ (lift_getitem_ok _ _ _ st Hv)).
  cbv beta. rewrite eff_bind_assoc.
  rewrite (eff_bind_ok _ _ _ _ _ (on_self_read ZarrWriter.data_model st dm Hdm)).
  cbv beta zeta. rewrite eff_bind_assoc.
  destruct (ZarrWriter.group (ZarrWriter.self_ st)) as [grp|] eqn:Hgroup.
  2: { by rewrite (eff_bind_raise _ _ _ _ _ (on_self_read_unbound _ st Hgroup)). }
  rewrite (eff_bind_ok _ _ _ _ _ (on_self_read ZarrWriter.group st grp Hgroup)).
  cbv beta. rewrite eff_bind_assoc.
  destruct grp as [path|].
  2: { by cbn. }
  destruct (zarr.members_of (zarr.arrays (ZarrWriter.files_ st)) path !! var_name)
    as [a|] eqn:Hm.
  { erewrite eff_bind_raise; [discriminate|].
    apply on_files_raise. unfold zarr.create_dataset. rewrite Hm. reflexivity. }
  intros _. exists dm, v, path. split; [done|]. split; [done|]. split; [done|].
  by rewrite member_members_of.
Qed.

Lemma member_insert_members_of (A : zarr.store) path n x p q :
  zarr.member (<[path := <[n := x]> (zarr.members_of A path)]> A) p q
  = if decide (p = path /\ q = n) then Some x else zarr.member A p q.
Proof.
  rewrite !member_members_of.
  destruct (decide (p = path)) as [->|Hp].
  - rewrite members_of_insert. destruct (decide (q = n)) as [->|Hq].
    + rewrite lookup_insert_eq. by rewrite decide_True.
    + rewrite lookup_insert_ne by done. rewrite decide_False; [done|]. by intros [_ ?].
  - rewrite members_of_insert_ne by done. rewrite decide_False; [done|]. by intros [? _].
Qed.

Lemma dataset_insert_members_of (A : zarr.store)
    (ds : gmap string (gmap string zarr.Dataset)) path n x p q :
  zarr.dataset {| zarr.arrays := A;
                  zarr.datasets := <[path := <[n := x]> (zarr.members_of ds path)]> ds |} p q
  = if decide (p = path /\ q = n) then Some x
    else zarr.members_of ds p !! q.
Proof.
  unfold zarr.dataset. cbn [zarr.datasets].
  destruct (decide (p = path)) as [->|Hp].
  - rewrite members_of_insert. destruct (decide (q = n)) as [->|Hq].
    + rewrite lookup_insert_eq. by rewrite decide_True.
    + rewrite lookup_insert_ne by done. rewrite decide_False; [done|]. by intros [_ ?].
  - rewrite members_of_insert_ne by done. rewrite decide_False; [done|]. by intros [? _].
Qed.

#[local] Instance members_unchanged_refl : Reflexive members_unchanged.
Proof. intros st. split; [done|]. by intros p q a H. Qed.

#[local] Instance members_unchanged_trans : Transitive members_unchanged.
Proof.
  intros st1 st2 st3 [S12 M12] [S23 M23]. split; [by rewrite S23|].
  intros p q a H. destruct (M12 p q a H) as [H2 D2].
  destruct (M23 p q a H2) as [H3 D3]. split; [done|]. by rewrite D3.
Qed.

Lemma create_variable_datasets_cons var_name var_names st :
  ZarrWriter.create_variable_datasets (var_name :: var_names) st
  = (do_ ZarrWriter.create_variable_datasets [var_name];
     ZarrWriter.create_variable_datasets var_names) st.
Proof. unfold ZarrWriter.create_variable_datasets. apply (for_app [var_name]). Qed.

(** What every turn of [create_variable_datasets] has made, when the loop
    returns. *)
Lemma create_variable_datasets_post var_names st st' :
  ZarrWriter.create_variable_datasets var_names st = (inr tt, st') ->
  members_unchanged st st' /\
  forall var_name, var_name ∈ var_names ->
    exists dm v path,
      ZarrWriter.data_model (ZarrWriter.self_ st) = Some dm /\
      _ncds_vars dm !! var_name = Some v /\
      ZarrWriter.group (ZarrWriter.self_ st) = Some (Some path) /\
      zarr.member (zarr.arrays (ZarrWriter.files_ st)) path var_name = None /\
      zarr.member (zarr.arrays (ZarrWriter.files_ st')) path var_name
      = Some (written_member v) /\
      zarr.dataset (ZarrWriter.files_ st') path var_name
      = Some (written_dataset dm var_name v).
Proof.
  revert st. induction var_names as [|n ns IH]; intros st H.
  { injection H as <-. split; [reflexivity|]. intros ? Hin. by apply elem_of_nil in Hin. }
  rewrite create_variable_datasets_cons in H.
  apply eff_bind_inv in H as [(e & _ & [=])|([] & st1 & Hone & Hrest)].
  destruct (create_variable_dataset_inv _ _ _ Hone) as (dm & v & path & Hdm & Hv & Hgroup & Hfree).
  rewrite (create_variable_dataset_eval _ _ _ _ _ Hdm Hv Hgroup Hfree) in Hone.
  injection Hone as Hst1.
  destruct (IH _ Hrest) as [Hun Hns].
  assert (members_unchanged st st1) as Hun1.
  { rewrite <- Hst1. split; [done|]. intros p q a Ha.
    cbn [ZarrWriter.files_ zarr.arrays]. rewrite member_insert_members_of.
    rewrite dataset_insert_members_of.
    destruct (decide (p = path /\ q = n)) as [[-> ->]|Hne]; [congruence|by split]. }
  assert (zarr.member (zarr.arrays (ZarrWriter.files_ st1)) path n = Some (written_member v)
          /\ zarr.dataset (ZarrWriter.files_ st1) path n = Some (written_dataset dm n v))
    as [Hm1 Hd1].
  { rewrite <- Hst1. cbn [ZarrWriter.files_ zarr.arrays].
    rewrite member_insert_members_of, dataset_insert_members_of.
    by destruct (decide (path = path /\ n = n)) as [_|[]]. }
  split; [by etransitivity|].
  intros name Hin. apply elem_of_cons in Hin as [->|Hin].
  - exists dm, v, path. split; [done|]. split; [done|]. split; [done|]. split; [done|].
    destruct Hun as [_ Hun]. destruct (Hun _ _ _ Hm1) as [Hm Hd]. split; [done|].
    by rewrite Hd.
  - destruct (Hns name Hin) as (dm' & v' & path' & Hdm' & Hv' & Hgroup' & Hfree' & Hm' & Hd').
    destruct Hun1 as [Hself Hun1]. rewrite Hself in Hdm', Hgroup'.
    exists dm', v', path'. split; [done|]. split; [done|]. split; [done|].
    split; [|by split].
    destruct (zarr.member (zarr.arrays (ZarrWriter.files_ st)) path' name) as [a|] eqn:Ha;
      [|done].
    destruct (Hun1 _ _ _ Ha) as [Ha1 _]. congruence.
Qed.

Lemma foldl_insert_lookup {V} (f : string -> V) (ks : list string) (m : gmap string V) k :
  foldl (fun m k => <[k := f k]> m) m ks !! k
  = if decide (k ∈ ks) then Some (f k) else m !! k.
Proof.
  revert m. induction ks as [|k0 ks IH]; intros m; cbn [foldl].
  - rewrite decide_False; [done|]. apply not_elem_of_nil.
  - rewrite IH. destruct (decide (k ∈ ks)) as [Hin|Hnin].
    + rewrite decide_True; [done|]. by apply list_elem_of_further.
    + destruct (decide (k = k0)) as [->|Hne].
      * rewrite lookup_insert_eq. rewrite decide_True; [done|]. apply list_elem_of_here.
      * rewrite lookup_insert_ne by done. rewrite decide_False; [done|].
        intros Hin. apply elem_of_cons in Hin as [?|?]; done.
Qed.

Lemma written_attrs_lookup (v : Variable_) k :
  written_attrs v !! k
  = if decide (k = "_ARRAY_DIMENSIONS") then Some (zarr.AttrNames (dimensions v))
    else if decide (k ∈ ncattrs v) then Some (zarr.AttrValue (getncattr v k))
    else None.
Proof.
  unfold written_attrs. destruct (decide (k = "_ARRAY_DIMENSIONS")) as [->|Hne].
  - by rewrite lookup_insert_eq.
  - rewrite lookup_insert_ne by done.
    rewrite (foldl_insert_lookup (fun k => zarr.AttrValue (getncattr v k))).
    destruct (decide (k ∈ ncattrs v)); [done|]. apply lookup_empty.
Qed.

(** X17: when [create_variable_datasets] returns, the writer has a group
    and every name in [var_names] was free in it and is now a member with
    the shape of the variable of that name, created with the chunk hint and
    the dtype of the variable, assigned the whole payload once, and carrying
    the attributes of the variable and, under [_ARRAY_DIMENSIONS], the names
    of its dimensions, which replace a NetCDF attribute of that name; the
    writer itself and the members that were there are unchanged. *)
Theorem X17_create_variable_datasets var_names st st' var_name :
  ZarrWriter.create_variable_datasets var_names st = (inr tt, st') ->
  var_name ∈ var_names ->
  ZarrWriter.self_ st' = ZarrWriter.self_ st /\
  (forall p q a,
     zarr.member (zarr.arrays (ZarrWriter.files_ st)) p q = Some a ->
     zarr.member (zarr.arrays (ZarrWriter.files_ st')) p q = Some a) /\
  exists dm v path d,
    ZarrWriter.data_model (ZarrWriter.self_ st) = Some dm /\
    _ncds_vars dm !! var_name = Some v /\
    ZarrWriter.group (ZarrWriter.self_ st) = Some (Some path) /\
    zarr.member (zarr.arrays (ZarrWriter.files_ st)) path var_name = None /\
    zarr.member (zarr.arrays (ZarrWriter.files_ st')) path var_name
    = Some {| zarr.arr_shape := shape v; zarr.appended := [] |} /\
    zarr.dataset (ZarrWriter.files_ st') path var_name = Some d /\
    zarr.ds_chunks d = get_chunks dm var_name /\
    zarr.ds_dtype d = dtype v /\
    zarr.ds_assigned d = [shape v] /\
    forall k,
      zarr.ds_attrs d !! k
      = if decide (k = "_ARRAY_DIMENSIONS") then Some (zarr.AttrNames (dimensions v))
        else if decide (k ∈ ncattrs v) then Some (zarr.AttrValue (getncattr v k))
        else None.
Proof.
  intros Hrun Hin.
  destruct (create_variable_datasets_post _ _ _ Hrun) as [[Hself Hun] Hnames].
  split; [done|]. split.
  { intros p q a Ha. by destruct (Hun p q a Ha). }
  destruct (Hnames var_name Hin) as (dm & v & path & Hdm & Hv & Hgroup & Hfree & Hm & Hd).
  exists dm, v, path, (written_dataset dm var_name v).
  repeat (split; [done|]). intros k. apply written_attrs_lookup.
Qed.

Lemma X17_create_variable_datasets_witness :
  let st := {| ZarrWriter.self_ := example_zarr_writer;
               ZarrWriter.files_ := {| zarr.arrays := ∅; zarr.datasets := ∅ |} |} in
  let st' := snd (ZarrWriter.create_variable_datasets ["temp"; "time"] st) in
  (ZarrWriter.create_variable_datasets ["temp"; "time"] st = (inr tt, st') /\
   "temp" ∈ ["temp"; "time"]) /\
  ZarrWriter.self_ st' = ZarrWriter.self_ st /\
  (forall p q a,
     zarr.member (zarr.arrays (ZarrWriter.files_ st)) p q = Some a ->
     zarr.member (zarr.arrays (ZarrWriter.files_ st')) p q = Some a) /\
  exists dm v path d,
    ZarrWriter.data_model (ZarrWriter.self_ st) = Some dm /\
    _ncds_vars dm !! "temp" = Some v /\
    ZarrWriter.group (ZarrWriter.self_ st) = Some (Some path) /\
    zarr.member (zarr.arrays (ZarrWriter.files_ st)) path "temp" = None /\
    zarr.member (zarr.arrays (ZarrWriter.files_ st')) path "temp"
    = Some {| zarr.arr_shape := shape v; zarr.appended := [] |} /\
    zarr.dataset (ZarrWriter.files_ st') path "temp" = Some d /\
    zarr.ds_chunks d = get_chunks dm "temp" /\
    zarr.ds_dtype d = dtype v /\
    zarr.ds_assigned d = [shape v] /\
    forall k,
      zarr.ds_attrs d !! k
      = if decide (k = "_ARRAY_DIMENSIONS") then Some (zarr.AttrNames (dimensions v))
        else if decide (k ∈ ncattrs v) then Some (zarr.AttrValue (getncattr v k))
        else None.
Proof.
  intros st st'.
  assert (ZarrWriter.create_variable_datasets ["temp"; "time"] st = (inr tt, st')) as H1.
  { apply (run_returns (ZarrWriter.create_variable_datasets ["temp"; "time"]) st tt).
    by vm_compute. }
  assert ("temp" ∈ ["temp"; "time"]) as H2 by apply list_elem_of_here.
  split; [by split|].
  exact (X17_create_variable_datasets ["temp"; "time"] st st' "temp" H1 H2).
Defined.

(** ** Creating the whole Zarr group *)

Lemma open_group_members_of {A} (m : gmap string (gmap string A)) path p :
  zarr.members_of (<[path := zarr.members_of m path]> m) p = zarr.members_of m p.
Proof.
  unfold zarr.members_of at 1 3. destruct (decide (p = path)) as [->|Hne].
  - by rewrite lookup_insert_eq.
  - by rewrite lookup_insert_ne.
Qed.

Lemma member_members_of_eq (s : zarr.store) p q :
  zarr.member s p q = zarr.members_of s p !! q.
Proof.
  unfold zarr.member, zarr.members_of. by destruct (s !! p).
Qed.

Lemma open_group_keeps path (fs : zarr.files) :
  exists fs',
    zarr.open_group path fs = (inr tt, fs') /\
    (forall p q, zarr.member (zarr.arrays fs') p q = zarr.member (zarr.arrays fs) p q) /\
    (forall p q, zarr.dataset fs' p q = zarr.dataset fs p q).
Proof.
  eexists. split; [reflexivity|]. split; intros p q.
  - rewrite !member_members_of_eq. cbn [zarr.arrays].
    by rewrite open_group_members_of.
  - unfold zarr.dataset. cbn [zarr.datasets]. by rewrite open_group_members_of.
Qed.

(** One turn of the loop of [create_zarr] over the domains. *)
Lemma create_zarr_turn dm domain st st' :
  ZarrWriter.data_model (ZarrWriter.self_ st) = Some dm ->
  (do dm' <- ZarrWriter.on_self (ZarrWriter.read ZarrWriter.data_model);
   do domain_vars <- lift (getitem (domain_varname_mapping dm') domain);
   ZarrWriter.create_variable_datasets domain_vars) st = (inr tt, st') ->
  exists domain_vars,
    domain_varname_mapping dm !! domain = Some domain_vars /\
    ZarrWriter.create_variable_datasets domain_vars st = (inr tt, st').
Proof.
  intros Hdm H.
  rewrite (eff_bind_ok _ _ _ _ _ (on_self_read _ _ _ Hdm)) in H.
  destruct (domain_varname_mapping dm !! domain) as [domain_vars|] eqn:Hvars.
  - rewrite (eff_bind_ok _ _ _ _ _ (lift_getitem_ok _ _ _ _ Hvars)) in H. by eauto.
  - apply eff_bind_inv in H as [(e & _ & [=])|(vars & s1 & H1 & _)].
    unfold lift, getitem in H1. by rewrite Hvars in H1.
Qed.

Lemma create_zarr_loop_unchanged dm (ds : list (list string)) st st' :
  ZarrWriter.data_model (ZarrWriter.self_ st) = Some dm ->
  for_ ds (fun domain =>
    do dm' <- ZarrWriter.on_self (ZarrWriter.read ZarrWriter.data_model);
    do domain_vars <- lift (getitem (domain_varname_mapping dm') domain);
    ZarrWriter.create_variable_datasets domain_vars) st = (inr tt, st') ->
  members_unchanged st st'.
Proof.
  revert st. induction ds as [|d ds IH]; intros st Hdm H.
  - injection H as <-. reflexivity.
  - cbn [for_] in H.
    apply eff_bind_inv in H as [(e & _ & [=])|([] & s1 & H1 & H)].
    destruct (create_zarr_turn _ _ _ _ Hdm H1) as (vars & _ & Hvars).
    destruct (create_variable_datasets_post _ _ _ Hvars) as [Hun _].
    transitivity s1; [done|]. apply IH; [|done].
    destruct Hun as [-> _]. done.
Qed.

(** What [create_zarr] leaves when it returns. *)
Lemma create_zarr_post flat_keys_order st st' :
  ZarrWriter.create_zarr flat_keys_order st = (inr tt, st') ->
  exists dm store st0,
    ZarrWriter.data_model (ZarrWriter.self_ st) = Some dm /\
    ZarrWriter.array_filename (ZarrWriter.self_ st) = Some store /\
    ZarrWriter.self_ st0 = snd (ZarrWriter.set_group (Some store) (ZarrWriter.self_ st)) /\
    ZarrWriter.self_ st' = ZarrWriter.self_ st0 /\
    (forall p q,
       zarr.member (zarr.arrays (ZarrWriter.files_ st0)) p q
       = zarr.member (zarr.arrays (ZarrWriter.files_ st)) p q) /\
    (forall p q,
       zarr.dataset (ZarrWriter.files_ st0) p q = zarr.dataset (ZarrWriter.files_ st) p q) /\
    members_unchanged st0 st' /\
    (forall domain, domain ∈ domains dm ->
       exists domain_vars, domain_varname_mapping dm !! domain = Some domain_vars) /\
    (forall domain domain_vars var_name,
       domain ∈ domains dm ->
       domain_varname_mapping dm !! domain = Some domain_vars ->
       var_name ∈ domain_vars ->
       (var_name ∉ flat_keys_order) /\
       exists v,
         _ncds_vars dm !! var_name = Some v /\
         zarr.member (zarr.arrays (ZarrWriter.files_ st0)) store var_name = None /\
         zarr.member (zarr.arrays (ZarrWriter.files_ st')) store var_name
         = Some (written_member v) /\
         zarr.dataset (ZarrWriter.files_ st') store var_name
         = Some (written_dataset dm var_name v)) /\
    (forall k, k ∈ flat_keys_order ->
       exists v,
         _ncds_vars dm !! k = Some v /\
         zarr.member (zarr.arrays (ZarrWriter.files_ st0)) store k = None /\
         zarr.member (zarr.arrays (ZarrWriter.files_ st')) store k
         = Some (written_member v) /\
         zarr.dataset (ZarrWriter.files_ st') store k = Some (written_dataset dm k v)).
Proof.
  intros H. unfold ZarrWriter.create_zarr in H.
  destruct (ZarrWriter.array_filename (ZarrWriter.self_ st)) as [store|] eqn:Hstore; cycle 1.
  { rewrite (eff_bind_raise _ _ _ _ _ (on_self_read_unbound _ _ Hstore)) in H. done. }
  rewrite (eff_bind_ok _ _ _ _ _ (on_self_read _ _ _ Hstore)) in H.
  destruct (open_group_keeps store (ZarrWriter.files_ st)) as (fs & Hopen & Hmem & Hds).
  rewrite (eff_bind_ok _ _ _ _ _ (on_files_ok _ _ _ _ Hopen)) in H.
  cbv beta in H.
  set (st0 := {| ZarrWriter.self_ :=
                   snd (ZarrWriter.set_group (Some store) (ZarrWriter.self_ st));
                 ZarrWriter.files_ := fs |}).
  assert (ZarrWriter.on_self (ZarrWriter.set_group (Some store))
            {| ZarrWriter.self_ := ZarrWriter.self_ st; ZarrWriter.files_ := fs |}
          = (inr tt, st0)) as Hset by reflexivity.
  rewrite (eff_bind_ok _ _ _ _ _ Hset) in H. cbv beta in H.
  assert (ZarrWriter.group (ZarrWriter.self_ st0) = Some (Some store)) as Hgroup0
    by reflexivity.
  destruct (ZarrWriter.data_model (ZarrWriter.self_ st)) as [dm|] eqn:Hdm; cycle 1.
  { assert (ZarrWriter.data_model (ZarrWriter.self_ st0) = None) as Hdm0 by exact Hdm.
    rewrite (eff_bind_raise _ _ _ _ _ (on_self_read_unbound _ _ Hdm0)) in H. done. }
  assert (ZarrWriter.data_model (ZarrWriter.self_ st0) = Some dm) as Hdm0 by exact Hdm.
  rewrite (eff_bind_ok _ _ _ _ _ (on_self_read _ _ _ Hdm0)) in H.
  apply eff_bind_inv in H as [(e & _ & [=])|([] & st1 & Hloop & H)].
  pose proof (create_zarr_loop_unchanged _ _ _ _ Hdm0 Hloop) as Hun01.
  assert (ZarrWriter.self_ st1 = ZarrWriter.self_ st0) as Hself1 by apply Hun01.
  assert (ZarrWriter.data_model (ZarrWriter.self_ st1) = Some dm) as Hdm1
    by (by rewrite Hself1).
  rewrite (eff_bind_ok _ _ _ _ _ (on_self_read _ _ _ Hdm1)) in H.
  destruct (create_variable_datasets_post _ _ _ H) as [Hun1 Hkeys].
  assert (forall k, k ∈ flat_keys_order ->
            exists v,
              _ncds_vars dm !! k = Some v /\
              zarr.member (zarr.arrays (ZarrWriter.files_ st1)) store k = None /\
              zarr.member (zarr.arrays (ZarrWriter.files_ st')) store k
              = Some (written_member v) /\
              zarr.dataset (ZarrWriter.files_ st') store k
              = Some (written_dataset dm k v)) as Hkeys'.
  { intros k Hk.
    destruct (Hkeys k Hk) as (dm' & v & path & Hdm' & Hv & Hgroup & Hfree & Hm & Hd).
    rewrite Hdm1 in Hdm'. injection Hdm' as <-.
    rewrite Hself1, Hgroup0 in Hgroup. injection Hgroup as <-.
    by eauto. }
  exists dm, store, st0.
  split; [done|]. split; [done|]. split; [done|]. split.
  { destruct Hun1 as [-> _]. done. }
  split; [done|]. split; [done|]. split; [by transitivity st1|]. split; [|split].
  - intros domain Hin.
    apply list_elem_of_split in Hin as (ds1 & ds2 & Hsplit).
    rewrite Hsplit in Hloop.
    apply for_returns_split in Hloop as (sa & sb & Hpre & Hturn & _).
    pose proof (create_zarr_loop_unchanged _ _ _ _ Hdm0 Hpre) as [Hselfa _].
    assert (ZarrWriter.data_model (ZarrWriter.self_ sa) = Some dm) as Hdma
      by (by rewrite Hselfa).
    destruct (create_zarr_turn _ _ _ _ Hdma Hturn) as (vars & Hvars & _). by eauto.
  - intros domain domain_vars var_name Hin Hvars Hvar.
    apply list_elem_of_split in Hin as (ds1 & ds2 & Hsplit).
    rewrite Hsplit in Hloop.
    apply for_returns_split in Hloop as (sa & sb & Hpre & Hturn & Hpost).
    pose proof (create_zarr_loop_unchanged _ _ _ _ Hdm0 Hpre) as Huna.
    assert (ZarrWriter.self_ sa = ZarrWriter.self_ st0) as Hselfa by apply Huna.
    assert (ZarrWriter.data_model (ZarrWriter.self_ sa) = Some dm) as Hdma
      by (by rewrite Hselfa).
    destruct (create_zarr_turn _ _ _ _ Hdma Hturn) as (vars & Hvars' & Hcreate).
    rewrite Hvars in Hvars'. injection Hvars' as <-.
    destruct (create_variable_datasets_post _ _ _ Hcreate) as [Hunb Hnames].
    destruct (Hnames var_name Hvar)
      as (dm' & v & path & Hdm' & Hv & Hgroup & Hfree & Hm & Hd).
    rewrite Hdma in Hdm'. injection Hdm' as <-.
    rewrite Hselfa, Hgroup0 in Hgroup. injection Hgroup as <-.
    assert (ZarrWriter.data_model (ZarrWriter.self_ sb) = Some dm) as Hdmb.
    { destruct Hunb as [-> _]. done. }
    pose proof (create_zarr_loop_unchanged _ _ _ _ Hdmb Hpost) as Hunb1.
    destruct Hunb1 as [_ Hkeep1]. destruct (Hkeep1 _ _ _ Hm) as [Hm1 Hd1].
    destruct Hun1 as [_ Hkeep]. destruct (Hkeep _ _ _ Hm1) as [Hm' Hd'].
    split.
    + intros Hk. destruct (Hkeys' _ Hk) as (v' & _ & Hfree1 & _).
      by rewrite Hm1 in Hfree1.
    + exists v. split; [done|]. split.
      * destruct (zarr.member (zarr.arrays (ZarrWriter.files_ st0)) store var_name)
          as [a|] eqn:Ha; [|done].
        destruct Huna as [_ Hkeepa]. destruct (Hkeepa _ _ _ Ha) as [Ha' _].
        by rewrite Ha' in Hfree.
      * split; [done|]. by rewrite Hd', Hd1.
  - intros k Hk. destruct (Hkeys' _ Hk) as (v & Hv & Hfree & Hm & Hd).
    exists v. split; [done|]. split; [|done].
    destruct (zarr.member (zarr.arrays (ZarrWriter.files_ st0)) store k)
      as [a|] eqn:Ha; [|done].
    destruct Hun01 as [_ Hkeep01]. destruct (Hkeep01 _ _ _ Ha) as [Ha' _].
    by rewrite Ha' in Hfree.
Qed.

(** X18: when [create_zarr] returns, the writer's [group] is the group at
    its [array_filename]; every member there was is still there as it was;
    every domain of the data model has an entry in
    [domain_varname_mapping]; every variable of every domain, and every
    dimension name of the final pass, was free in the group and is now a
    member with the shape of the variable of that name in the data model,
    with the dataset record [create_variable_datasets] leaves; and no
    variable of a domain is among the dimension names of the final pass. *)
Theorem X18_create_zarr flat_keys_order st st' :
  ZarrWriter.create_zarr flat_keys_order st = (inr tt, st') ->
  exists dm store,
    ZarrWriter.data_model (ZarrWriter.self_ st) = Some dm /\
    ZarrWriter.array_filename (ZarrWriter.self_ st) = Some store /\
    ZarrWriter.group (ZarrWriter.self_ st') = Some (Some store) /\
    ZarrWriter.data_model (ZarrWriter.self_ st') = Some dm /\
    ZarrWriter.array_filename (ZarrWriter.self_ st') = Some store /\
    (forall p q a,
       zarr.member (zarr.arrays (ZarrWriter.files_ st)) p q = Some a ->
       zarr.member (zarr.arrays (ZarrWriter.files_ st')) p q = Some a) /\
    (forall domain, domain ∈ domains dm ->
       is_Some (domain_varname_mapping dm !! domain)) /\
    (forall var_name,
       (var_name ∈ flat_keys_order \/
        exists domain domain_vars,
          domain ∈ domains dm /\
          domain_varname_mapping dm !! domain = Some domain_vars /\
          var_name ∈ domain_vars) ->
       exists v,
         _ncds_vars dm !! var_name = Some v /\
         zarr.member (zarr.arrays (ZarrWriter.files_ st)) store var_name = None /\
         zarr.member (zarr.arrays (ZarrWriter.files_ st')) store var_name
         = Some (written_member v) /\
         zarr.dataset (ZarrWriter.files_ st') store var_name
         = Some (written_dataset dm var_name v)) /\
    (forall domain domain_vars var_name,
       domain ∈ domains dm ->
       domain_varname_mapping dm !! domain = Some domain_vars ->
       var_name ∈ domain_vars ->
       var_name ∉ flat_keys_order).
Proof.
  intros H.
  destruct (create_zarr_post _ _ _ H)
    as (dm & store & st0 & Hdm & Hstore & Hself0 & Hself' & Hmem & Hds & Hun & Hmap
        & Hvars & Hkeys).
  exists dm, store. split; [done|]. split; [done|].
  split; [by rewrite Hself', Hself0|]. split; [by rewrite Hself', Hself0|].
  split; [by rewrite Hself', Hself0|]. split; [|split; [|split]].
  - intros p q a Ha. rewrite <- Hmem in Ha. destruct Hun as [_ Hkeep].
    by destruct (Hkeep _ _ _ Ha).
  - intros domain Hin. destruct (Hmap _ Hin) as [vars ->]. by eexists.
  - intros var_name [Hk|(domain & vars & Hin & Hdv & Hvar)].
    + destruct (Hkeys _ Hk) as (v & Hv & Hfree & Hm & Hd). rewrite Hmem in Hfree.
      by eauto.
    + destruct (Hvars _ _ _ Hin Hdv Hvar) as [_ (v & Hv & Hfree & Hm & Hd)].
      rewrite Hmem in Hfree. by eauto.
  - intros domain vars var_name Hin Hdv Hvar.
    by destruct (Hvars _ _ _ Hin Hdv Hvar).
Qed.

Lemma X18_create_zarr_witness :
  let order := ["lon"; "time"; "lat"] in
  let st := example_zarr_state in
  let st' := snd (ZarrWriter.create_zarr order st) in
  ZarrWriter.create_zarr order st = (inr tt, st') /\
  exists dm store,
    ZarrWriter.data_model (ZarrWriter.self_ st) = Some dm /\
    ZarrWriter.array_filename (ZarrWriter.self_ st) = Some store /\
    ZarrWriter.group (ZarrWriter.self_ st') = Some (Some store) /\
    ZarrWriter.data_model (ZarrWriter.self_ st') = Some dm /\
    ZarrWriter.array_filename (ZarrWriter.self_ st') = Some store /\
    (forall p q a,
       zarr.member (zarr.arrays (ZarrWriter.files_ st)) p q = Some a ->
       zarr.member (zarr.arrays (ZarrWriter.files_ st')) p q = Some a) /\
    (forall domain, domain ∈ domains dm ->
       is_Some (domain_varname_mapping dm !! domain)) /\
    (forall var_name,
       (var_name ∈ order \/
        exists domain domain_vars,
          domain ∈ domains dm /\
          domain_varname_mapping dm !! domain = Some domain_vars /\
          var_name ∈ domain_vars) ->
       exists v,
         _ncds_vars dm !! var_name = Some v /\
         zarr.member (zarr.arrays (ZarrWriter.files_ st)) store var_name = None /\
         zarr.member (zarr.arrays (ZarrWriter.files_ st')) store var_name
         = Some (written_member v) /\
         zarr.dataset (ZarrWriter.files_ st') store var_name
         = Some (written_dataset dm var_name v)) /\
    (forall domain domain_vars var_name,
       domain ∈ domains dm ->
       domain_varname_mapping dm !! domain = Some domain_vars ->
       var_name ∈ domain_vars ->
       var_name ∉ order).
Proof.
  intros order st st'.
  assert (ZarrWriter.create_zarr order st = (inr tt, st')) as H1.
  { apply (run_returns (ZarrWriter.create_zarr order) st tt). by vm_compute. }
  split; [exact H1|].
  exact (X18_create_zarr order st st' H1).
Defined.

(** ** Appending to the group the writer created *)





